(** * tdsMD5retag: a shallow embedding of [tdsMD5retag.py]

    The script keeps files named [yyyymmddhhmmss.<md5 of the content>]:
    for each path it recomputes the MD5 digest, renames the file when the
    digest part of the name is stale, and forces the file's mtime/atime to
    the instant spelled by the 14 digits.

    The development follows the script top-down: the library routines it
    calls ([hashlib.md5], [re], [os.path], [time.strptime]) are written
    out as functions, the file system is an explicit store threaded
    through a small state-and-exception monad, and the four functions of
    the script ([saneDirname], [tdsTouch], [md5stringForFile],
    [tdsMD5retagFunc]) and its driver loop are transcribed on top.

    The script is Python 2 ([print] statement, [except OSError as (errno,
    strerror)]); the library routines are those of Python 2.7 on POSIX. *)

From Stdlib Require Import ZArith Lia Ascii String List Bool.
From Stdlib Require Import Strings.Byte.
From stdpp Require Import base tactics option list gmap strings.


Local Open Scope Z_scope.

(* ===================================================================== *)
(** ** [hashlib.md5]: RFC 1321 on [list byte], words as [Z] modulo 2^32 *)
(* ===================================================================== *)

Module Md5.

Definition w32 (x : Z) : Z := x mod 4294967296.

Definition add32 (x y : Z) : Z := w32 (x + y).

Definition not32 (x : Z) : Z := 4294967295 - x.

Definition rotl32 (x : Z) (c : Z) : Z :=
  w32 (Z.lor (Z.shiftl x c) (Z.shiftr x (32 - c))).

(** Per-round shift amounts. *)
Definition S_tab : list Z :=
  [ 7; 12; 17; 22; 7; 12; 17; 22; 7; 12; 17; 22; 7; 12; 17; 22;
    5;  9; 14; 20; 5;  9; 14; 20; 5;  9; 14; 20; 5;  9; 14; 20;
    4; 11; 16; 23; 4; 11; 16; 23; 4; 11; 16; 23; 4; 11; 16; 23;
    6; 10; 15; 21; 6; 10; 15; 21; 6; 10; 15; 21; 6; 10; 15; 21 ].

(** [K_tab[i] = floor (2^32 * |sin (i + 1)|)]. *)
Definition K_tab : list Z :=
  [ 3614090360; 3905402710; 606105819; 3250441966; 4118548399; 1200080426;
    2821735955; 4249261313; 1770035416; 2336552879; 4294925233; 2304563134;
    1804603682; 4254626195; 2792965006; 1236535329; 4129170786; 3225465664;
    643717713; 3921069994; 3593408605; 38016083; 3634488961; 3889429448;
    568446438; 3275163606; 4107603335; 1163531501; 2850285829; 4243563512;
    1735328473; 2368359562; 4294588738; 2272392833; 1839030562; 4259657740;
    2763975236; 1272893353; 4139469664; 3200236656; 681279174; 3936430074;
    3572445317; 76029189; 3654602809; 3873151461; 530742520; 3299628645;
    4096336452; 1126891415; 2878612391; 4237533241; 1700485571; 2399980690;
    4293915773; 2240044497; 1873313359; 4264355552; 2734768916; 1309151649;
    4149444226; 3174756917; 718787259; 3951481745 ].

Definition byteZ (b : byte) : Z := Z.of_N (Byte.to_N b).

(** Little-endian encoding of the low [n] bytes of [x]. *)
Fixpoint le_bytes (n : nat) (x : Z) : list Z :=
  match n with
  | O => []
  | S n' => (x mod 256) :: le_bytes n' (x / 256)
  end.

Fixpoint le_word (bs : list Z) : Z :=
  match bs with
  | [] => 0
  | b :: bs' => b + 256 * le_word bs'
  end.

(** Message padding: a single 0x80, zeros up to 56 modulo 64, then the
    bit length on 64 bits, little-endian. *)
Definition pad (msg : list Z) : list Z :=
  let n := Z.of_nat (length msg) in
  let zeros := Z.to_nat ((55 - n) mod 64) in
  msg ++ [128] ++ repeat 0 zeros ++ le_bytes 8 ((8 * n) mod 18446744073709551616).

(** Cut a list into pieces of [n] elements; [fuel] bounds the number of
    pieces. *)
Fixpoint chunks {A} (fuel : nat) (n : nat) (l : list A) : list (list A) :=
  match fuel with
  | O => []
  | S fuel' =>
      match l with
      | [] => []
      | _ => firstn n l :: chunks fuel' n (skipn n l)
      end
  end.

Definition words_of_block (blk : list Z) : list Z :=
  map le_word (chunks 16 4 blk).

Record regs := mkRegs { rA : Z; rB : Z; rC : Z; rD : Z }.

Definition init : regs :=
  mkRegs 1732584193 4023233417 2562383102 271733878.

(** One of the 64 operations of the compression function. *)
Definition step (M : list Z) (r : regs) (i : nat) : regs :=
  let '(mkRegs A B C D) := r in
  let iz := Z.of_nat i in
  let '(F, g) :=
    if iz <? 16 then
      (Z.lor (Z.land B C) (Z.land (not32 B) D), iz)
    else if iz <? 32 then
      (Z.lor (Z.land D B) (Z.land (not32 D) C), (5 * iz + 1) mod 16)
    else if iz <? 48 then
      (Z.lxor (Z.lxor B C) D, (3 * iz + 5) mod 16)
    else
      (Z.lxor C (Z.lor B (not32 D)), (7 * iz) mod 16) in
  let F' := add32 (add32 (add32 F A) (nth i K_tab 0)) (nth (Z.to_nat g) M 0) in
  mkRegs D (add32 B (rotl32 F' (nth i S_tab 0))) B C.

Definition compress (r : regs) (blk : list Z) : regs :=
  let M := words_of_block blk in
  let r' := fold_left (step M) (seq 0 64) r in
  mkRegs (add32 (rA r) (rA r')) (add32 (rB r) (rB r'))
         (add32 (rC r) (rC r')) (add32 (rD r) (rD r')).

Definition digest_regs (msg : list byte) : regs :=
  let p := pad (map byteZ msg) in
  fold_left compress (chunks (length p) 64 p) init.

(** The 16 digest bytes. *)
Definition digest (msg : list byte) : list Z :=
  let r := digest_regs msg in
  le_bytes 4 (rA r) ++ le_bytes 4 (rB r) ++ le_bytes 4 (rC r) ++ le_bytes 4 (rD r).

Definition hexchar (n : Z) : ascii :=
  match String.get (Z.to_nat n) "0123456789abcdef" with
  | Some c => c
  | None => "0"%char
  end.

Fixpoint hex_of_bytes (bs : list Z) : string :=
  match bs with
  | [] => ""
  | b :: bs' => String (hexchar (b / 16)) (String (hexchar (b mod 16)) (hex_of_bytes bs'))
  end.

(** [hashlib.md5(data).hexdigest()] *)
Definition hexdigest (msg : list byte) : string := hex_of_bytes (digest msg).

End Md5.

(* ===================================================================== *)
(** ** Byte strings: the [str] methods and [os.path] functions used *)
(* ===================================================================== *)

(** [s[:n]] and [s[n:]] for [0 <= n]. *)
Fixpoint str_take (n : nat) (s : string) : string :=
  match n, s with
  | S n', String c s' => String c (str_take n' s')
  | _, _ => ""
  end.

Fixpoint str_drop (n : nat) (s : string) : string :=
  match n, s with
  | S n', String _ s' => str_drop n' s'
  | _, _ => s
  end.

(** [s.rfind(c) + 1]: one past the last occurrence of [c], 0 when there
    is none. *)
Fixpoint rfind_end (c : ascii) (s : string) : nat :=
  match s with
  | "" => O
  | String a s' =>
      match rfind_end c s' with
      | O => if Ascii.eqb a c then 1%nat else O
      | S n => S (S n)
      end
  end.

Fixpoint all_chars (p : ascii -> bool) (s : string) : bool :=
  match s with
  | "" => true
  | String a s' => p a && all_chars p s'
  end.

(** [s.rstrip(chars)] and [s.lstrip(chars)] for a set of characters. *)
Fixpoint str_rstrip (p : ascii -> bool) (s : string) : string :=
  match s with
  | "" => ""
  | String a s' =>
      match str_rstrip p s' with
      | "" => if p a then "" else String a ""
      | t => String a t
      end
  end.

Fixpoint str_lstrip (p : ascii -> bool) (s : string) : string :=
  match s with
  | "" => ""
  | String a s' => if p a then str_lstrip p s' else s
  end.

Definition code (c : ascii) : N := N_of_ascii c.

Definition in_range (lo hi c : ascii) : bool :=
  ((code lo <=? code c) && (code c <=? code hi))%N.

(** [string.whitespace] of Python 2: space, tab, LF, VT, FF, CR. *)
Definition is_space (c : ascii) : bool :=
  (code c =? 32)%N || ((9 <=? code c) && (code c <=? 13))%N.

(** [s.strip()] *)
Definition str_strip (s : string) : string :=
  str_rstrip is_space (str_lstrip is_space s).

Definition is_slash (c : ascii) : bool := Ascii.eqb c "/".

(** [posixpath.dirname]:
<<
    i = p.rfind('/') + 1
    head = p[:i]
    if head and head != '/'*len(head):
        head = head.rstrip('/')
    return head
>> *)
Definition os_path_dirname (p : string) : string :=
  let i := rfind_end "/" p in
  let head := str_take i p in
  if negb (String.eqb head "") && negb (all_chars is_slash head)
  then str_rstrip is_slash head
  else head.

(** [posixpath.basename]: [p[p.rfind('/') + 1:]] *)
Definition os_path_basename (p : string) : string :=
  str_drop (rfind_end "/" p) p.

(** [saneDirname]; [None] is Python's [None]. *)
Definition saneDirname (path : string) : option string :=
  if String.eqb path "" then None
  else
    let dir := os_path_dirname path in
    if String.eqb dir "" then Some "." else Some dir.

(* ===================================================================== *)
(** ** [re]: the fragment of regular expressions the script relies on *)
(* ===================================================================== *)

(** Character classes, concatenation, ordered alternation, capturing
    groups and the [$] assertion.  There is no repetition operator:
    [x{n}] is unfolded by [rep]. *)
Inductive re : Type :=
| Eps : re
| Cls : (ascii -> bool) -> re
| Seq : re -> re -> re
| Alt : re -> re -> re
| Grp : re -> re
| Eos : re.

Fixpoint rep (n : nat) (r : re) : re :=
  match n with
  | O => Eps
  | S n' => Seq r (rep n' r)
  end.

(** The text between two positions of the subject, each given by what
    is left to read. *)
Definition consumed (s rest : string) : string :=
  str_take (String.length s - String.length rest) s.

Definition nl : string := String "010" "".

(** Where [$] holds: at the end of the subject and just before a newline
    that ends it. *)
Definition at_end (s : string) : bool := String.eqb s "" || String.eqb s nl.

(** Backtracking matcher in continuation-passing style: [k] receives what
    is left of the subject and the groups closed so far; alternatives
    are tried left to right and the first complete match wins, as in
    Python's engine. *)
Fixpoint re_run {R : Type} (r : re) (s : string) (caps : list string)
    (k : string -> list string -> option R) : option R :=
  match r with
  | Eps => k s caps
  | Cls p =>
      match s with
      | String c s' => if p c then k s' caps else None
      | "" => None
      end
  | Seq a b => re_run a s caps (fun s' caps' => re_run b s' caps' k)
  | Alt a b =>
      match re_run a s caps k with
      | Some x => Some x
      | None => re_run b s caps k
      end
  | Grp a => re_run a s caps (fun s' caps' => k s' (caps' ++ [consumed s s'])%list)
  | Eos => if at_end s then k s caps else None
  end.

(** [pattern.match(s)]: the groups and the unread rest ([s[m.end():]]),
    or [None]. *)
Definition re_match (r : re) (s : string) : option (list string * string) :=
  re_run r s [] (fun rest caps => Some (caps, rest)).

Definition is_digit : ascii -> bool := in_range "0" "9".

Definition is_hex (c : ascii) : bool :=
  is_digit c || in_range "A" "F" c || in_range "a" "f" c.

Definition chr (c : ascii) : re := Cls (Ascii.eqb c).

(** ['([0-9]{14})\.([0-9A-Fa-f]{32})$'] *)
Definition re_tds_md5 : re :=
  Seq (Grp (rep 14 (Cls is_digit)))
      (Seq (chr ".") (Seq (Grp (rep 32 (Cls is_hex))) Eos)).

(** ['([0-9]{14})()$'] *)
Definition re_tds_only : re :=
  Seq (Grp (rep 14 (Cls is_digit))) (Seq (Grp Eps) Eos).

(* ===================================================================== *)
(** ** [time.strptime(_, '%Y%m%d%H%M%S')] *)
(* ===================================================================== *)

Module Strptime.

Definition d : re := Cls is_digit.
Definition rng (lo hi : ascii) : re := Cls (in_range lo hi).

(** The regular expressions [_strptime.TimeRE] substitutes for the
    directives. *)
(** [%Y]: [(?P<Y>\d\d\d\d)] *)
Definition re_Y : re := Grp (Seq d (Seq d (Seq d d))).
(** [%m]: [(?P<m>1[0-2]|0[1-9]|[1-9])] *)
Definition re_m : re :=
  Grp (Alt (Seq (chr "1") (rng "0" "2"))
      (Alt (Seq (chr "0") (rng "1" "9")) (rng "1" "9"))).
(** [%d]: [(?P<d>3[0-1]|[1-2]\d|0[1-9]|[1-9]| [1-9])] *)
Definition re_d : re :=
  Grp (Alt (Seq (chr "3") (rng "0" "1"))
      (Alt (Seq (rng "1" "2") d)
      (Alt (Seq (chr "0") (rng "1" "9"))
      (Alt (rng "1" "9") (Seq (chr " ") (rng "1" "9")))))).
(** [%H]: [(?P<H>2[0-3]|[0-1]\d|\d)] *)
Definition re_H : re :=
  Grp (Alt (Seq (chr "2") (rng "0" "3")) (Alt (Seq (rng "0" "1") d) d)).
(** [%M]: [(?P<M>[0-5]\d|\d)] *)
Definition re_M : re := Grp (Alt (Seq (rng "0" "5") d) d).
(** [%S]: [(?P<S>6[0-1]|[0-5]\d|\d)] *)
Definition re_S : re :=
  Grp (Alt (Seq (chr "6") (rng "0" "1")) (Alt (Seq (rng "0" "5") d) d)).

Definition re_format : re :=
  Seq re_Y (Seq re_m (Seq re_d (Seq re_H (Seq re_M re_S)))).

(** [int(s)] on a group of the format: decimal digits, blanks skipped. *)
Definition digit_val (c : ascii) : Z := Z.of_N (code c) - 48.

Fixpoint int_acc (acc : Z) (s : string) : Z :=
  match s with
  | "" => acc
  | String c s' => if is_digit c then int_acc (10 * acc + digit_val c) s' else int_acc acc s'
  end.

Definition int (s : string) : Z := int_acc 0 s.

(** [datetime.date]: the proleptic Gregorian calendar. *)
Definition is_leap (y : Z) : bool :=
  (y mod 4 =? 0) && (negb (y mod 100 =? 0) || (y mod 400 =? 0)).

Definition days_in_month (y m : Z) : Z :=
  if m =? 2 then (if is_leap y then 29 else 28)
  else if (m =? 4) || (m =? 6) || (m =? 9) || (m =? 11) then 30
  else 31.

Definition days_before_year (year : Z) : Z :=
  let y := year - 1 in
  y * 365 + y / 4 - y / 100 + y / 400.

Definition days_before_month (y m : Z) : Z :=
  fold_left (fun acc k => acc + days_in_month y (Z.of_nat k)) (seq 1 (Z.to_nat (m - 1))) 0.

(** The constructor [date(year, month, day)] raises [ValueError] outside
    these bounds. *)
Definition date_ok (y m dd : Z) : bool :=
  (1 <=? y) && (y <=? 9999) && (1 <=? m) && (m <=? 12) &&
  (1 <=? dd) && (dd <=? days_in_month y m).

Definition toordinal (y m dd : Z) : Z :=
  days_before_year y + days_before_month y m + dd.

Record struct_time := mkTm {
  tm_year : Z; tm_mon : Z; tm_mday : Z;
  tm_hour : Z; tm_min : Z; tm_sec : Z;
  tm_wday : Z; tm_yday : Z; tm_isdst : Z }.

(** [time.strptime(data, '%Y%m%d%H%M%S')]; [None] stands for the
    [ValueError] raised when the format does not match, when data
    remains after the match, or when the date does not exist. *)
Definition strptime (data : string) : option struct_time :=
  match re_match re_format data with
  | None => None
  | Some (caps, rest) =>
      if negb (String.eqb rest "") then None
      else
        match caps with
        | [gY; gm; gd; gH; gM; gS] =>
            let year := int gY in
            let month := int gm in
            let day := int gd in
            if date_ok year month day then
              Some (mkTm year month day (int gH) (int gM) (int gS)
                         ((toordinal year month day + 6) mod 7)
                         (toordinal year month day - toordinal year 1 1 + 1)
                         (-1))
            else None
        | _ => None
        end
  end.

(** One concrete [time.mktime]: a zone at a fixed offset of [off]
    seconds east of UTC without daylight saving.  The seconds since the
    epoch are linear in the fields, which is how the C library
    normalises a field that is out of its range. *)
Definition mktime_fixed (off : Z) (t : struct_time) : option Z :=
  Some ((toordinal (tm_year t) (tm_mon t) (tm_mday t) - 719163) * 86400
        + tm_hour t * 3600 + tm_min t * 60 + tm_sec t - off).

End Strptime.

(* ===================================================================== *)
(** ** The file system and the process state *)
(* ===================================================================== *)

(** A regular file: its bytes, its two timestamps (seconds since the
    epoch), and what the operating system lets this process do with it:
    [open] it for reading, [read] it to the end once open, change its
    timestamps. *)
Record file := mkFile {
  f_data : list byte;
  f_mtime : Z;
  f_atime : Z;
  f_may_open : bool;
  f_may_read : bool;
  f_may_utime : bool }.

(** A directory entry is a regular file or something else; the only
    other kind the script can tell apart is a directory. *)
Inductive node : Type :=
| Reg : file -> node
| Subdir : node.

(** A directory: its entries by name, whether the process may enter it
    ([chdir]) and whether it may add and remove entries. *)
Record directory := mkDir {
  d_entries : gmap string node;
  d_may_search : bool;
  d_may_write : bool }.

(** Exceptions that reach the script. *)
Inductive exn : Type :=
| TypeError : exn
| ValueError : exn
| OverflowError : exn
| IOError : exn
| OSError : exn.

(** What the script writes to [sys.stderr], one constructor per
    [sys.stderr.write] of the source, with the values it formats. *)
Inductive diag : Type :=
| BadTds (ymdhms : string)
| CantUpdate (fileName : string)
| CantOpen (fileName cwd : string)
| NoDir (dir fileName : string)
| NoFile (base fileName dir : string)
| BadForm (base dir : string)
| WarnMultiple (tds dir : string)
| Duplicate (base proposed dir : string)
| Collides (base proposed dir : string)
| CantRename (base proposed dir : string)
| CantTouch (tds proposed dir : string).

(** The text of each message. *)
Definition render (m : diag) : string :=
  match m with
  | BadTds y => "timestamp '" +:+ y +:+ "' not in tds form(yyyymmddhhmmss)" +:+ nl
  | CantUpdate f => "Can't update " +:+ f +:+ "(error:Operation not permitted)" +:+ nl
  | CantOpen f c => "Can't open '" +:+ f +:+ "' in '" +:+ c +:+ "' ?" +:+ nl
  | NoDir d f => "No dir '" +:+ d +:+ "' for file '" +:+ f +:+ "' ?" +:+ nl
  | NoFile b f d =>
      "No file '" +:+ b +:+ "' for file '" +:+ f +:+ "' in dir '" +:+ d +:+ "' ?" +:+ nl
  | BadForm b d =>
      "Filename '" +:+ b +:+ "' in dir '" +:+ d
      +:+ "' not in tds.md5 (or even in old tds format)" +:+ nl
  | WarnMultiple t d => "Warning: multiple files with TDS " +:+ t +:+ " in " +:+ d +:+ nl
  | Duplicate b p d =>
      b +:+ " has duplicate(" +:+ p +:+ ") in '" +:+ d +:+ "' = deleting" +:+ nl
  | Collides b p d => b +:+ " collides with mistagged " +:+ p +:+ " in " +:+ d +:+ nl
  | CantRename b p d =>
      "Can't rename '" +:+ b +:+ "' as '" +:+ p +:+ "' in '" +:+ d +:+ "' ?" +:+ nl
  | CantTouch t p d => "Can't tdsTouch(" +:+ t +:+ ", " +:+ p +:+ ") in " +:+ d +:+ " ?" +:+ nl
  end.

(** The failure reasons of the specification. *)
Inductive failure : Type :=
| NoSuchDirectory | NoSuchFile | UnrecognizedFilenameForm
| DigestComputationError | NameCollision | RenameFailed | TimestampApplyFailed.

(** Which failure a message reports; the two notices that do not stop
    the processing of a path report none. *)
Definition failure_of (m : diag) : option failure :=
  match m with
  | NoDir _ _ => Some NoSuchDirectory
  | NoFile _ _ _ => Some NoSuchFile
  | BadForm _ _ => Some UnrecognizedFilenameForm
  | CantOpen _ _ => Some DigestComputationError
  | Collides _ _ _ => Some NameCollision
  | CantRename _ _ _ => Some RenameFailed
  | BadTds _ | CantUpdate _ | CantTouch _ _ _ => Some TimestampApplyFailed
  | WarnMultiple _ _ | Duplicate _ _ _ => None
  end.

(** The system calls that change the file system, logged in the order
    they succeed.  The log is ghost state: the script does not read it. *)
Inductive action : Type :=
| Removed (dir name : string)
| Renamed (dir old new : string)
| Touched (dir name : string) (atime mtime : Z).

(** The state a call runs in: the directories by the name that reaches
    them from the directory the script was started in (["."] is that
    directory), the current working directory, the two output streams and
    the log.  Two names of one directory, symbolic links and other
    processes acting on the same files are outside the model. *)
Record state := mkState {
  st_fs : gmap string directory;
  st_cwd : string;
  st_stderr : list diag;
  st_stdout : list string;
  st_log : list action }.

Definition set_fs (fs : gmap string directory) (s : state) : state :=
  mkState fs (st_cwd s) (st_stderr s) (st_stdout s) (st_log s).

Definition set_cwd (d : string) (s : state) : state :=
  mkState (st_fs s) d (st_stderr s) (st_stdout s) (st_log s).

(** A process freshly started on a file system. *)
Definition start (fs : gmap string directory) : state := mkState fs "." [] [] [].

(** *** The monad: state and exceptions *)

Inductive outcome (A : Type) : Type :=
| Val : A -> outcome A
| Exc : exn -> outcome A.
Arguments Val {A} _.
Arguments Exc {A} _.

Definition M (A : Type) : Type := state -> outcome A * state.

Definition ret {A} (a : A) : M A := fun s => (Val a, s).

Definition bind {A B} (m : M A) (k : A -> M B) : M B :=
  fun s =>
    match m s with
    | (Val a, s') => k a s'
    | (Exc e, s') => (Exc e, s')
    end.

Definition raise {A} (e : exn) : M A := fun s => (Exc e, s).

(** [try: m  except: h]; what [m] did before it raised stays done. *)
Definition try_except {A} (m : M A) (h : exn -> M A) : M A :=
  fun s =>
    match m s with
    | (Val a, s') => (Val a, s')
    | (Exc e, s') => h e s'
    end.

Declare Scope py_scope.
Delimit Scope py_scope with py.
Notation "x <- m ;; k" := (bind m (fun x => k))
  (at level 100, m at next level, right associativity) : py_scope.
Notation "m ;; k" := (bind m (fun _ => k))
  (at level 100, right associativity) : py_scope.
Local Open Scope py_scope.

Definition get : M state := fun s => (Val s, s).
Definition modify (f : state -> state) : M unit := fun s => (Val tt, f s).

(** *** Output *)

Definition stderr_write (m : diag) : M unit :=
  modify (fun s => mkState (st_fs s) (st_cwd s) (st_stderr s ++ [m]) (st_stdout s) (st_log s)).

(** [sys.stderr.write(a, b)]: the method takes exactly one argument, so
    the call raises [TypeError] and writes nothing. *)
Definition stderr_write2 (a b : string) : M unit := raise TypeError.

(** [print line] *)
Definition print (line : string) : M unit :=
  modify (fun s => mkState (st_fs s) (st_cwd s) (st_stderr s) (st_stdout s ++ [line]) (st_log s)).

Definition log (a : action) : M unit :=
  modify (fun s => mkState (st_fs s) (st_cwd s) (st_stderr s) (st_stdout s) (st_log s ++ [a])).

(** *** [os], [os.path], [glob] and [open]

    A directory name is looked up as it is written, from the start
    directory; every other name below is a base name, looked up in the
    current working directory. *)

Definition os_getcwd : M string := s <- get ;; ret (st_cwd s).

Definition os_path_isdir (dir : string) : M bool :=
  s <- get ;; ret (match st_fs s !! dir with Some _ => true | None => false end).

(** [os.chdir]: [OSError] when the directory is missing or may not be
    entered. *)
Definition os_chdir (dir : string) : M unit :=
  s <- get ;;
  match st_fs s !! dir with
  | Some d => if d_may_search d then modify (set_cwd dir) else raise OSError
  | None => raise OSError
  end.

(** The entry [name] of the current working directory. *)
Definition lookup_entry (s : state) (name : string) : option node :=
  d ← st_fs s !! st_cwd s; d_entries d !! name.

Definition os_path_isfile (name : string) : M bool :=
  s <- get ;;
  ret (match lookup_entry s name with Some (Reg _) => true | _ => false end).

(** [glob.glob(prefix + '*')] for a prefix without wildcard characters:
    the names in the current directory that start with it. *)
Definition glob_names (prefix : string) (s : state) : list string :=
  match st_fs s !! st_cwd s with
  | Some d =>
      filter (fun n => Is_true (String.prefix prefix n)) (map fst (map_to_list (d_entries d)))
  | None => []
  end.

Definition glob_prefix (prefix : string) : M (list string) :=
  s <- get ;; ret (glob_names prefix s).

(** [open(name, "rb")]: the file object is modelled by the file it
    reads. *)
Definition py_open (name : string) : M file :=
  s <- get ;;
  match lookup_entry s name with
  | Some (Reg f) => if f_may_open f then ret f else raise IOError
  | _ => raise IOError
  end.

(** [fd.read()] *)
Definition fd_read (fd : file) : M (list byte) :=
  if f_may_read fd then ret (f_data fd) else raise IOError.

(** Replace the entries of the current working directory. *)
Definition set_entries (es : gmap string node) (s : state) : state :=
  match st_fs s !! st_cwd s with
  | Some d => set_fs (<[st_cwd s := mkDir es (d_may_search d) (d_may_write d)]> (st_fs s)) s
  | None => s
  end.

Definition cwd_entries (s : state) : gmap string node :=
  match st_fs s !! st_cwd s with
  | Some d => d_entries d
  | None => ∅
  end.

Definition cwd_may_write (s : state) : bool :=
  match st_fs s !! st_cwd s with
  | Some d => d_may_write d
  | None => false
  end.

(** [os.remove]: unlinks a file; [OSError] when there is no such file,
    when the name is a directory, or when the directory may not be
    written. *)
Definition os_remove (name : string) : M unit :=
  s <- get ;;
  match lookup_entry s name with
  | Some (Reg _) =>
      if cwd_may_write s then
        modify (set_entries (delete name (cwd_entries s))) ;;
        log (Removed (st_cwd s) name)
      else raise OSError
  | _ => raise OSError
  end.

(** [os.rename] of a regular file within the current directory: the new
    name is taken over when it is free or names a regular file;
    [OSError] when the old name is missing, when the new name is a
    directory, or when the directory may not be written. *)
Definition os_rename (old new : string) : M unit :=
  s <- get ;;
  match lookup_entry s old, lookup_entry s new with
  | Some (Reg f), (None | Some (Reg _)) =>
      if cwd_may_write s then
        modify (set_entries (<[new := Reg f]> (delete old (cwd_entries s)))) ;;
        log (Renamed (st_cwd s) old new)
      else raise OSError
  | _, _ => raise OSError
  end.

(** [os.utime(name, (atime, mtime))] *)
Definition os_utime (name : string) (atime mtime : Z) : M unit :=
  s <- get ;;
  match lookup_entry s name with
  | Some (Reg f) =>
      if f_may_utime f then
        modify (set_entries
          (<[name := Reg (mkFile (f_data f) mtime atime (f_may_open f) (f_may_read f) (f_may_utime f))]>
             (cwd_entries s))) ;;
        log (Touched (st_cwd s) name atime mtime)
      else raise OSError
  | _ => raise OSError
  end.

(* ===================================================================== *)
(** ** The script *)
(* ===================================================================== *)

Section Script.

(** [time.mktime] depends on the local time zone and on the C library;
    it is a parameter.  [None] stands for the [OverflowError] or
    [ValueError] it raises when it cannot represent the time. *)
Variable time_mktime : Strptime.struct_time -> option Z.

(** [tdsTouch]:
<<
    try:
        tds = time.strptime(ymdhms, '%Y%m%d%H%M%S')
    except ValueError:
        sys.stderr.write("timestamp '%s' not in tds form(yyyymmddhhmmss)\n" % ymdhms)
        return False
    if not os.path.isfile(fileName) :
        sys.stderr.write("fileName '%s' invalid", fileName)
        return False
    epochSeconds = int(time.mktime(tds))
    try:
        os.utime(fileName, (epochSeconds, epochSeconds))
    except OSError as (errno, strerror):
        sys.stderr.write("Can't update %s(error:%s)\n" % (fileName, strerror) )
        return False
    return True
>>
    The second [sys.stderr.write] is called with two arguments; [write]
    takes one, so the call raises [TypeError] and the [return False]
    after it is not reached. *)
Definition tdsTouch (ymdhms fileName : string) : M bool :=
  match Strptime.strptime ymdhms with
  | None => stderr_write (BadTds ymdhms) ;; ret false
  | Some tds =>
      isf <- os_path_isfile fileName ;;
      if negb isf then
        stderr_write2 "fileName '%s' invalid" fileName ;; ret false
      else
        match time_mktime tds with
        | None => raise OverflowError
        | Some epochSeconds =>
            try_except
              (os_utime fileName epochSeconds epochSeconds ;; ret true)
              (fun e =>
                 match e with
                 | OSError => stderr_write (CantUpdate fileName) ;; ret false
                 | _ => raise e
                 end)
        end
  end.

(** What [md5stringForFile] returns: [False] or the digest. *)
Inductive md5_result : Type :=
| PyFalse : md5_result
| PyStr : string -> md5_result.

(** [not x] for such a value. *)
Definition py_not (x : md5_result) : bool :=
  match x with
  | PyFalse => true
  | PyStr s => String.eqb s ""
  end.

(** [x == y] for two such values. *)
Definition py_eq (x y : md5_result) : bool :=
  match x, y with
  | PyFalse, PyFalse => true
  | PyStr a, PyStr b => String.eqb a b
  | _, _ => false
  end.

(** [str] concatenation applies to the digest only. *)
Definition py_str (x : md5_result) : string :=
  match x with
  | PyFalse => ""
  | PyStr s => s
  end.

(** [md5stringForFile]:
<<
    try :
        fd = open(fileName, "rb")
    except :
        sys.stderr.write( "Can't open '%s' in '%s' ?\n" % (fileName, os.getcwd() ) )
        return False
    m = hashlib.md5()
    m.update( fd.read() )
    return m.hexdigest()
>>
    Only [open] is inside the [try]. *)
Definition md5stringForFile (fileName : string) : M md5_result :=
  r <- try_except
         (fd <- py_open fileName ;; ret (Some fd))
         (fun _ =>
            cwd <- os_getcwd ;;
            stderr_write (CantOpen fileName cwd) ;;
            ret None) ;;
  match r with
  | None => ret PyFalse
  | Some fd =>
      data <- fd_read fd ;;
      ret (PyStr (Md5.hexdigest data))
  end.

(** The two [p.match(base)] of [tdsMD5retagFunc]: the groups of the
    tds.md5 pattern, else those of the bare tds pattern. *)
Definition match_name (base : string) : option (list string) :=
  match re_match re_tds_md5 base with
  | Some (groups, _) => Some groups
  | None =>
      match re_match re_tds_only base with
      | Some (groups, _) => Some groups
      | None => None
      end
  end.

(** [m.group(i)], [i >= 1] *)
Definition group (m : list string) (i : nat) : string := nth (i - 1) m "".

(** [tdsMD5retagFunc] is transcribed in four pieces, last part first:
    the end of the function is reached from three places of the rename
    decision, and the rename from two. *)

(** Lines 178-187, from "OK - file now exists with correct name":
<<
    if not tdsTouch( tds, proposed ) :
        sys.stderr.write( "Can't tdsTouch(%s, %s) in %s ?\n" % (tds, proposed, dir) )
        return False
    if base != proposed :
        print "%s: %s -> %s" % (tds, m.group( 2 ), md5)
    return True
>> *)
Definition force_timestamp (dir base : string) (m : list string)
    (tds md5 proposed : string) : M bool :=
  ok <- tdsTouch tds proposed ;;
  if negb ok then
    stderr_write (CantTouch tds proposed dir) ;; ret false
  else
    (if negb (String.eqb base proposed)
     then print (tds +:+ ": " +:+ group m 2 +:+ " -> " +:+ md5)
     else ret tt) ;;
    ret true.

(** Lines 172-176, then the end of the function:
<<
        try :
            os.rename( base, proposed )
        except:
            sys.stderr.write( "Can't rename '%s' as '%s' in '%s' ?\n" % (base, proposed, dir) )
            return False
>> *)
Definition rename_it (dir base : string) (m : list string)
    (tds md5 proposed : string) : M bool :=
  renamed <- try_except
    (os_rename base proposed ;; ret true)
    (fun _ => stderr_write (CantRename base proposed dir) ;; ret false) ;;
  if renamed then force_timestamp dir base m tds md5 proposed else ret false.

(** Lines 121-170, what the function does once it stands in [dir]; the
    comments quote the source. *)
Definition retag_in_dir (dir fileName : string) : M bool :=
  let base := os_path_basename fileName in
  isf <- os_path_isfile base ;;
  if negb isf then
    stderr_write (NoFile base fileName dir) ;; ret false
  else
    match match_name base with
    | None => stderr_write (BadForm base dir) ;; ret false
    | Some m =>
        let tds := group m 1 in
        (* l = glob.glob( tds + '*' ) *)
        l <- glob_prefix tds ;;
        (if negb (length l =? 1)%nat
         then stderr_write (WarnMultiple tds dir) else ret tt) ;;
        md5 <- md5stringForFile base ;;
        if py_not md5 then ret false
        else
          let proposed := tds +:+ "." +:+ py_str md5 in
          if negb (String.eqb base proposed) then
            isp <- os_path_isfile proposed ;;
            if isp then
              md5p <- md5stringForFile proposed ;;
              if py_not md5p then ret false
              else if py_eq md5 md5p then
                stderr_write (Duplicate base proposed dir) ;;
                os_remove proposed ;;
                rename_it dir base m tds (py_str md5) proposed
              else
                stderr_write (Collides base proposed dir) ;; ret false
            else rename_it dir base m tds (py_str md5) proposed
          else force_timestamp dir base m tds (py_str md5) proposed
    end.

(** [tdsMD5retagFunc], lines 105-119:
<<
    dir = saneDirname( fileName )
    if not os.path.isdir( dir ) :
        sys.stderr.write( "No dir '%s' for file '%s' ?\n" % (dir, fileName) )
        return False
    try:
        os.chdir( dir )
    except ValueError:
        ...
>>
    [os.path.isdir(None)] raises [TypeError]; [os.chdir] raises
    [OSError], which the handler for [ValueError] lets through. *)
Definition tdsMD5retagFunc (fileName : string) : M bool :=
  match saneDirname fileName with
  | None => raise TypeError
  | Some dir =>
      isd <- os_path_isdir dir ;;
      if negb isd then
        stderr_write (NoDir dir fileName) ;; ret false
      else
        os_chdir dir ;;
        retag_in_dir dir fileName
  end.

(** The driver loop over [sys.argv[1:]]:
<<
    while i < len(sys.argv) :
        os.chdir(startDir)
        f = sys.argv[i]
        tdsMD5retagFunc(f.strip())
        i += 1
>>
    [startDir] is the directory named ["."] here.  An exception that
    leaves [tdsMD5retagFunc] leaves the loop. *)
Fixpoint main_loop (args : list string) : M unit :=
  match args with
  | [] => ret tt
  | f :: rest =>
      modify (set_cwd ".") ;;
      tdsMD5retagFunc (str_strip f) ;;
      main_loop rest
  end.

(** One call under the driver's [os.chdir(startDir)]. *)
Definition process (path : string) : M bool :=
  modify (set_cwd ".") ;; tdsMD5retagFunc path.

End Script.


(* ===================================================================== *)
(** * The vocabulary of the statements *)
(* ===================================================================== *)

Import Strptime.

(** ** Names *)

(** A path without a directory part. *)
Definition no_slash (path : string) : bool :=
  all_chars (fun c => negb (is_slash c)) path.

(** [s] starts with [n] characters of the class [p]. *)
Definition rep_ok (p : ascii -> bool) (n : nat) (s : string) : bool :=
  (n <=? String.length s)%nat && all_chars p (str_take n s).

(** The two parts of the names the script accepts: 14 digits, and 32
    hexadecimal digits. *)
Definition is_tds (t : string) : bool :=
  (String.length t =? 14)%nat && all_chars is_digit t.

Definition is_hex32 (h : string) : bool :=
  (String.length h =? 32)%nat && all_chars is_hex h.

(** What the two patterns compute, by plain slicing. *)
Definition parse_full (base : string) : option (list string) :=
  if rep_ok is_digit 14 base then
    match str_drop 14 base with
    | String c s2 =>
        if Ascii.eqb "." c && rep_ok is_hex 32 s2 && at_end (str_drop 32 s2)
        then Some [str_take 14 base; str_take 32 s2] else None
    | "" => None
    end
  else None.

Definition parse_legacy (base : string) : option (list string) :=
  if rep_ok is_digit 14 base && at_end (str_drop 14 base)
  then Some [str_take 14 base; ""] else None.

(** The characters of a digest as [hexdigest] writes it. *)
Definition is_lower_hex (c : ascii) : bool := is_digit c || in_range "a" "f" c.

(** ** States and what a call did *)

(** The state of a process that stands in [dir], whose entries are [es]
    and whose permissions are [sb] (enter) and [wb] (write); the other
    directories are those of [fs]. *)
Definition St (fs : gmap string directory) (dir : string)
    (es : gmap string node) (sb wb : bool)
    (e : list diag) (o : list string) (l : list action) : state :=
  mkState (<[dir := mkDir es sb wb]> fs) dir e o l.

(** [os.path.isfile] on an entry. *)
Definition is_reg (n : option node) : bool :=
  match n with Some (Reg _) => true | _ => false end.

(** The file after [os.utime(_, (t, t))]. *)
Definition retime (t : Z) (f : file) : file :=
  mkFile (f_data f) t t (f_may_open f) (f_may_read f) (f_may_utime f).

(** The names [glob] finds among the entries [es]. *)
Definition names_with (prefix : string) (es : gmap string node) : list string :=
  filter (fun n => Is_true (String.prefix prefix n)) (map fst (map_to_list es)).

(** When [os.rename] succeeds, and the entries it leaves. *)
Definition is_subdir (n : option node) : bool :=
  match n with Some Subdir => true | _ => false end.

Definition can_rename (es : gmap string node) (wb : bool) (old new : string) : bool :=
  is_reg (es !! old) && negb (is_subdir (es !! new)) && wb.

Definition renamed_entries (es : gmap string node) (old new : string) : gmap string node :=
  match es !! old with
  | Some n => <[new := n]> (delete old es)
  | None => es
  end.


(** The failures a call reports, in order. *)
Definition reported (s : state) : list failure := omap failure_of (st_stderr s).

(** The entry [name] of the directory [dir]. *)
Definition entry (fs : gmap string directory) (dir name : string) : option node :=
  d ← fs !! dir; d_entries d !! name.

(** The file can be opened and read to the end. *)
Definition may_read (f : file) : bool := f_may_open f && f_may_read f.

(** The three kinds of logged system calls. *)
Definition is_renamed (a : action) : bool := match a with Renamed _ _ _ => true | _ => false end.
Definition is_removed (a : action) : bool := match a with Removed _ _ => true | _ => false end.
Definition is_touched (a : action) : bool := match a with Touched _ _ _ _ => true | _ => false end.

(** What holds after the processed file [f], found under [base], has
    been renamed to its canonical name, [pre] being what was logged
    before the rename. *)
Definition renamed_post (mk : Strptime.struct_time -> option Z)
    (dir base : string) (m : list string) (f : file) (pre : list action)
    (r : outcome bool) (s' : state) : Prop :=
  let tds := group m 1 in
  let md5 := Md5.hexdigest (f_data f) in
  let proposed := tds +:+ "." +:+ md5 in
  (exists rest, st_log s' = pre ++ Renamed dir base proposed :: rest
                /\ Forall (fun a => is_touched a = true) rest) /\
  entry (st_fs s') dir base = None /\
  (exists f', entry (st_fs s') dir proposed = Some (Reg f') /\ f_data f' = f_data f) /\
  (r = Val true <->
   exists tm t, Strptime.strptime tds = Some tm /\ mk tm = Some t /\ f_may_utime f = true) /\
  (r = Val true ->
   reported s' = [] /\ st_stdout s' = [tds +:+ ": " +:+ group m 2 +:+ " -> " +:+ md5]) /\
  (r <> Val true -> st_stdout s' = []) /\
  (Strptime.strptime tds = None ->
   r = Val false /\ last (reported s') = Some TimestampApplyFailed).

(** Every way a call can end: from the entries [es] of the directory,
    [retag_outcome mk dir base es r es' l] lists the results [r], the
    entries [es'] and the logs [l] the call on [base] can leave. *)
Inductive retag_outcome (mk : Strptime.struct_time -> option Z) (dir base : string)
    (es : gmap string node) : outcome bool -> gmap string node -> list action -> Prop :=
| RO_same r :
    (* nothing was changed *)
    r <> Val true ->
    retag_outcome mk dir base es r es []
| RO_touch f m tm t :
    (* the name was right: timestamps only *)
    es !! base = Some (Reg f) ->
    f_may_open f = true -> f_may_read f = true ->
    match_name base = Some m ->
    base = group m 1 +:+ "." +:+ Md5.hexdigest (f_data f) ->
    Strptime.strptime (group m 1) = Some tm -> mk tm = Some t ->
    f_may_utime f = true ->
    retag_outcome mk dir base es (Val true)
      (<[base := Reg (retime t f)]> es) [Touched dir base t t]
| RO_rename f m pre r es' l :
    (* renamed, after the removal of a duplicate or not, then the
       timestamps or a failure *)
    let proposed := group m 1 +:+ "." +:+ Md5.hexdigest (f_data f) in
    es !! base = Some (Reg f) ->
    match_name base = Some m ->
    base <> proposed ->
    (pre = [] /\ es !! proposed = None \/
     exists g, pre = [Removed dir proposed] /\ es !! proposed = Some (Reg g) /\
               Md5.hexdigest (f_data g) = Md5.hexdigest (f_data f)) ->
    es' !! base = None ->
    (exists f', es' !! proposed = Some (Reg f') /\ f_data f' = f_data f) ->
    (l = pre ++ [Renamed dir base proposed] /\ r <> Val true \/
     exists t, l = pre ++ [Renamed dir base proposed; Touched dir proposed t t] /\ r = Val true) ->
    retag_outcome mk dir base es r es' l.

(** How many logged calls are of a kind. *)
Definition count (p : action -> bool) (l : list action) : nat :=
  length (List.filter p l).

(** A logged removal is of a verified duplicate: another regular file
    of the directory whose digest is that of the processed file. *)
Definition removed_is_duplicate (fs : gmap string directory) (path : string)
    (a : action) : Prop :=
  match a with
  | Removed dir name =>
      exists f g,
        entry fs dir (os_path_basename path) = Some (Reg f) /\
        entry fs dir name = Some (Reg g) /\
        name <> os_path_basename path /\
        Md5.hexdigest (f_data g) = Md5.hexdigest (f_data f)
  | _ => True
  end.

(** The processed file, when the path names one, is still in its
    directory with the bytes it had, under its old name or under its
    canonical name, and the first 14 characters of its name are the
    same. *)
Definition processed_file_kept (fs : gmap string directory) (path : string)
    (s' : state) : Prop :=
  match saneDirname path with
  | Some dir =>
      let base := os_path_basename path in
      match entry fs dir base with
      | Some (Reg f) =>
          exists name' f',
            entry (st_fs s') dir name' = Some (Reg f') /\
            f_data f' = f_data f /\
            (name' = base \/
             name' = str_take 14 base +:+ "." +:+ Md5.hexdigest (f_data f)) /\
            str_take 14 name' = str_take 14 base
      | _ => True
      end
  | None => True
  end.

(** ** The format of [strptime] on 14 digits *)

(** The first match of a group that offers two-character alternatives
    before its one-character alternative: [K2] and [K1] are what the rest
    of the pattern finds after two characters and after one. *)
Definition pick {R} (two one : bool) (K2 K1 : option R) : option R :=
  if two then
    match K2 with
    | Some x => Some x
    | None => if one then K1 else None
    end
  else if one then K1 else None.

(** The two-character alternatives of the five groups after the
    year. *)
Definition two_m (a b : ascii) : bool :=
  Ascii.eqb "1" a && in_range "0" "2" b || Ascii.eqb "0" a && in_range "1" "9" b.
Definition two_d (a b : ascii) : bool :=
  Ascii.eqb "3" a && in_range "0" "1" b || in_range "1" "2" a && is_digit b
  || Ascii.eqb "0" a && in_range "1" "9" b.
Definition two_H (a b : ascii) : bool :=
  Ascii.eqb "2" a && in_range "0" "3" b || in_range "0" "1" a && is_digit b.
Definition two_M (a b : ascii) : bool := in_range "0" "5" a && is_digit b.
Definition two_S (a b : ascii) : bool :=
  Ascii.eqb "6" a && in_range "0" "1" b || in_range "0" "5" a && is_digit b.

(** A continuation that leaves nothing unread only on subjects of at
    most [n] digits. *)
Definition bounded (k : string -> list string -> option (list string * string))
    (n : nat) : Prop :=
  forall s caps x,
    all_chars is_digit s = true -> k s caps = Some x -> snd x = "" ->
    (String.length s <= n)%nat.

(** What follows each group in the format: the match ends, or the
    groups to its right are matched. *)
Definition k_end : string -> list string -> option (list string * string) :=
  fun rest caps => Some (caps, rest).
Definition k_S s caps := re_run re_S s caps k_end.
Definition k_M s caps := re_run re_M s caps k_S.
Definition k_H s caps := re_run re_H s caps k_M.
Definition k_d s caps := re_run re_d s caps k_H.
Definition k_m s caps := re_run re_m s caps k_d.

(** The six groups of a match that reads all 14 digits. *)
Definition groups_of (code : string) : list string :=
  [str_take 4 code; str_take 2 (str_drop 4 code); str_take 2 (str_drop 6 code);
   str_take 2 (str_drop 8 code); str_take 2 (str_drop 10 code);
   str_take 2 (str_drop 12 code)].

(** A group of exactly two characters that one of the two-character
    alternatives matches. *)
Definition pair_ok (two : ascii -> ascii -> bool) (s : string) : bool :=
  match s with
  | String a (String b "") => two a b
  | _ => false
  end.

(** Whether the format matches all of the code. *)
Definition format_ok (code : string) : bool :=
  match groups_of code with
  | [_; gm; gd; gH; gM; gS] =>
      pair_ok two_m gm && pair_ok two_d gd && pair_ok two_H gH
      && pair_ok two_M gM && pair_ok two_S gS
  | _ => false
  end.

(** What [strptime] builds from the groups. *)
Definition tm_of (code : string) : option struct_time :=
  match groups_of code with
  | [gY; gm; gd; gH; gM; gS] =>
      let year := int gY in
      let month := int gm in
      let day := int gd in
      if date_ok year month day then
        Some (mkTm year month day (int gH) (int gM) (int gS)
                   ((toordinal year month day + 6) mod 7)
                   (toordinal year month day - toordinal year 1 1 + 1)
                   (-1))
      else None
  | _ => None
  end.

(** The decimal value of two characters. *)
Definition int2 (a b : ascii) : Z := int (String a (String b "")).

(** The decimal value of the [n] characters of [code] from position
    [i]. *)
Definition field (code : string) (i n : nat) : Z :=
  int (str_take n (str_drop i code)).


(** What [strptime] accepts: the same, with a second up to 61. *)
Definition accepted (code : string) : bool :=
  date_ok (field code 0 4) (field code 4 2) (field code 6 2)
  && (field code 8 2 <=? 23) && (field code 10 2 <=? 59) && (field code 12 2 <=? 61).

(** ** Sample file systems *)

(** A file anyone may read and touch, with both timestamps at 0. *)
Definition file_of (content : string) : file :=
  mkFile (list_byte_of_string content) 0 0 true true true.

(** A file that opens but whose [read] fails. *)
Definition bad_sector_file : file := mkFile [] 0 0 true false true.

(** A file system with the one directory ["."], which may be entered and
    written. *)
Definition here (es : gmap string node) : gmap string directory :=
  {["." := mkDir es true true]}.

(** The digest of ["abc"]. *)
Definition md5_abc_hex : string := "900150983cd24fb0d6963f7d28e17f72".

(** [20200101000000] holds ["abc"]; its canonical name is taken by a
    file that holds ["xyz"]. *)
Definition es_collision : gmap string node :=
  <["20200101000000" := Reg (file_of "abc")]>
  (<["20200101000000.900150983cd24fb0d6963f7d28e17f72" := Reg (file_of "xyz")]> ∅).

(** [20200101000000] holds ["abc"]; its canonical name is taken by
    another file that holds ["abc"]. *)
Definition es_duplicate : gmap string node :=
  <["20200101000000" := Reg (file_of "abc")]>
  (<["20200101000000.900150983cd24fb0d6963f7d28e17f72" := Reg (file_of "abc")]> ∅).

(** The same with the 30th of February. *)
Definition es_duplicate_feb30 : gmap string node :=
  <["20200230000000" := Reg (file_of "abc")]>
  (<["20200230000000.900150983cd24fb0d6963f7d28e17f72" := Reg (file_of "abc")]> ∅).

(** One file in the old form. *)
Definition es_legacy : gmap string node :=
  <["20200101000000" := Reg (file_of "abc")]> ∅.

(** One file in the old form whose 14 digits are no date. *)
Definition es_legacy_nodate : gmap string node :=
  <["99999999999999" := Reg (file_of "abc")]> ∅.



(** A file that cannot be read to the end, and a sound one after it. *)
Definition es_bad_sector : gmap string node :=
  <["20200101000000" := Reg bad_sector_file]>
  (<["20200102000000" := Reg (file_of "abc")]> ∅).

(** ** Further vocabulary *)

(** The name the script gives a file: the first 14 characters of its
    name, a dot and the MD5 of its bytes. *)
Definition canonical (base : string) (f : file) : string :=
  str_take 14 base +:+ "." +:+ Md5.hexdigest (f_data f).

(** A file system with the start directory, empty, and the directory
    [d] below it with the entries [es]. *)
Definition below (d : string) (es : gmap string node) : gmap string directory :=
  <[d := mkDir es true true]> (here ∅).

(** One file whose name is no timestamp. *)
Definition es_unrecognised : gmap string node :=
  <["2020-01-01.txt" := Reg (file_of "abc")]> ∅.

(** One file that holds ["abc"], under a name that carries the right
    digest in capitals. *)
Definition es_capitals : gmap string node :=
  <["20200101000000.900150983CD24FB0D6963F7D28E17F72" := Reg (file_of "abc")]> ∅.

(** The state [s'] a call reaches from a fresh start, put after the
    state [s0]: the file system and the directory are those of [s'], and
    what [s'] wrote and logged follows what [s0] had. *)
Definition after (s0 s' : state) : state :=
  mkState (st_fs s') (st_cwd s')
          (st_stderr s0 ++ st_stderr s') (st_stdout s0 ++ st_stdout s')
          (st_log s0 ++ st_log s').



(* ===================================================================== *)
(** * Properties *)
(* ===================================================================== *)

(** ** Test vectors *)

Example md5_empty :
  Md5.hexdigest [] = "d41d8cd98f00b204e9800998ecf8427e".
Proof. vm_compute. reflexivity. Qed.

Example md5_abc :
  Md5.hexdigest (list_byte_of_string "abc") = "900150983cd24fb0d6963f7d28e17f72".
Proof. vm_compute. reflexivity. Qed.

Example md5_two_blocks :
  Md5.hexdigest (list_byte_of_string
    "12345678901234567890123456789012345678901234567890123456789012345678901234567890")
  = "57edf4a22be3c955ac49da2e2107b67a".
Proof. vm_compute. reflexivity. Qed.

Example render_collides :
  render (Collides "20200101000000" "20200101000000.900150983cd24fb0d6963f7d28e17f72" ".")
  = "20200101000000 collides with mistagged 20200101000000.900150983cd24fb0d6963f7d28e17f72 in ."
    +:+ nl.
Proof. reflexivity. Qed.

Example dirname_samples :
  map os_path_dirname ["abc"; "a/b"; "/a"; "a//b"; "//a"; "a/"; "a/b/c"]
  = [""; "a"; "/"; "a"; "//"; "a"; "a/b"].
Proof. reflexivity. Qed.

Example basename_samples :
  map os_path_basename ["abc"; "a/b"; "/a"; "a/"; "a/b/c"] = ["abc"; "b"; "a"; ""; "c"].
Proof. reflexivity. Qed.

(** ** The path splitter *)

Lemma rfind_end_no_slash path : no_slash path = true -> rfind_end "/" path = O.
Proof.
  induction path as [|a p IH]; simpl; [done|].
  intros [Ha Hp]%andb_true_iff. rewrite (IH Hp).
  unfold is_slash in Ha. by destruct (Ascii.eqb a "/").
Qed.



(** ** Strings *)

Lemma str_take_length n s : (n <= String.length s)%nat -> String.length (str_take n s) = n.
Proof.
  revert s; induction n as [|n IH]; intros [|c s] H; simpl in *; try lia.
  rewrite IH; lia.
Qed.

Lemma str_drop_length n s : String.length (str_drop n s) = (String.length s - n)%nat.
Proof. revert s; induction n as [|n IH]; intros [|c s]; simpl; auto; lia. Qed.

Lemma str_app_cons c u s : String c u +:+ s = String c (u +:+ s).
Proof. reflexivity. Qed.

Lemma str_app_nil_l s : "" +:+ s = s.
Proof. reflexivity. Qed.

Lemma str_take_drop n s : str_take n s +:+ str_drop n s = s.
Proof.
  revert s; induction n as [|n IH]; intros [|c s]; simpl; auto.
  by rewrite str_app_cons, IH.
Qed.

Lemma str_take_app u s : str_take (String.length u) (u +:+ s) = u.
Proof.
  induction u as [|c u IH]; [by destruct s|].
  rewrite str_app_cons. simpl. by rewrite IH.
Qed.

Lemma str_drop_app u s : str_drop (String.length u) (u +:+ s) = s.
Proof.
  induction u as [|c u IH]; [by destruct s|].
  rewrite str_app_cons. simpl. done.
Qed.

Lemma str_app_length u s :
  String.length (u +:+ s) = (String.length u + String.length s)%nat.
Proof.
  induction u as [|c u IH]; [done|].
  rewrite str_app_cons. simpl. by rewrite IH.
Qed.

Lemma str_app_assoc a b c : (a +:+ b) +:+ c = a +:+ (b +:+ c).
Proof.
  induction a as [|x a IH]; [done|].
  rewrite !str_app_cons. by rewrite IH.
Qed.

Lemma str_app_nil_r a : a +:+ "" = a.
Proof.
  induction a as [|x a IH]; [done|].
  rewrite str_app_cons. by rewrite IH.
Qed.

Lemma str_take_app_l n u s :
  (n <= String.length u)%nat -> str_take n (u +:+ s) = str_take n u.
Proof.
  revert u; induction n as [|n IH]; intros [|c u] H; simpl in *; try lia; try done.
  rewrite IH; [done|lia].
Qed.

Lemma all_chars_app p u s : all_chars p (u +:+ s) = all_chars p u && all_chars p s.
Proof.
  induction u as [|c u IH]; [done|].
  rewrite str_app_cons. simpl. by rewrite IH, andb_assoc.
Qed.

Lemma consumed_drop n s :
  (n <= String.length s)%nat -> consumed s (str_drop n s) = str_take n s.
Proof.
  intros Hn. unfold consumed. rewrite str_drop_length. f_equal. lia.
Qed.

(** ** The matcher on [x{n}] *)

Lemma re_run_rep {R} p n s caps (k : string -> list string -> option R) :
  re_run (rep n (Cls p)) s caps k =
  if rep_ok p n s then k (str_drop n s) caps else None.
Proof.
  unfold rep_ok. revert s; induction n as [|n IH]; intros s; simpl.
  - by destruct s.
  - destruct s as [|c s]; simpl; [done|].
    destruct (p c); simpl; [by rewrite IH|by rewrite andb_false_r].
Qed.

Lemma re_run_grp_rep {R} p n s caps (k : string -> list string -> option R) :
  re_run (Grp (rep n (Cls p))) s caps k =
  if rep_ok p n s then k (str_drop n s) (caps ++ [str_take n s])%list else None.
Proof.
  cbn [re_run]. rewrite re_run_rep.
  destruct (rep_ok p n s) eqn:E; [|done].
  rewrite consumed_drop; [done|].
  unfold rep_ok in E. apply andb_true_iff in E as [E _]. by apply Nat.leb_le.
Qed.

Lemma re_run_seq {R} a b s caps (k : string -> list string -> option R) :
  re_run (Seq a b) s caps k = re_run a s caps (fun s' caps' => re_run b s' caps' k).
Proof. reflexivity. Qed.

Lemma re_run_cls {R} p c s caps (k : string -> list string -> option R) :
  re_run (Cls p) (String c s) caps k = if p c then k s caps else None.
Proof. reflexivity. Qed.

Lemma re_run_eos {R} s caps (k : string -> list string -> option R) :
  re_run Eos s caps k = if at_end s then k s caps else None.
Proof. reflexivity. Qed.

Lemma match_name_parse base :
  match_name base =
  match parse_full base with
  | Some m => Some m
  | None => parse_legacy base
  end.
Proof.
  assert (Hleg : re_match re_tds_only base =
     if rep_ok is_digit 14 base && at_end (str_drop 14 base)
     then Some ([str_take 14 base; ""], str_drop 14 base) else None).
  { unfold re_match, re_tds_only. rewrite re_run_seq, re_run_grp_rep.
    destruct (rep_ok is_digit 14 base); [|done]. cbn [andb].
    rewrite re_run_seq. cbn [re_run].
    unfold consumed. rewrite Nat.sub_diag.
    by destruct (at_end _). }
  assert (Hfull : re_match re_tds_md5 base =
     match parse_full base with
     | Some m => Some (m, str_drop 32 (str_drop 15 base))
     | None => None
     end).
  { unfold re_match, re_tds_md5, parse_full. rewrite re_run_seq, re_run_grp_rep.
    destruct (rep_ok is_digit 14 base) eqn:E14; [|done].
    rewrite re_run_seq.
    assert (Hd : str_drop 15 base = str_drop 1 (str_drop 14 base)).
    { clear. do 14 (destruct base as [|? base]; [done|]). done. }
    rewrite Hd.
    destruct (str_drop 14 base) as [|c s2]; [done|].
    unfold chr. rewrite re_run_cls. destruct (Ascii.eqb "." c); [|done].
    rewrite re_run_seq, re_run_grp_rep. change (str_drop 1 (String c s2)) with s2. cbn [andb].
    destruct (rep_ok is_hex 32 s2); [|done]. cbn [andb].
    rewrite re_run_eos. by destruct (at_end (str_drop 32 s2)). }
  unfold match_name. rewrite Hfull, Hleg.
  destruct (parse_full base); [done|].
  unfold parse_legacy. by destruct (_ && _).
Qed.
Lemma rep_ok_app p u s :
  all_chars p u = true -> rep_ok p (String.length u) (u +:+ s) = true.
Proof.
  intros Hu. unfold rep_ok. rewrite str_take_app, Hu, str_app_length.
  rewrite andb_true_r. apply Nat.leb_le. lia.
Qed.

Lemma is_tds_inv t : is_tds t = true -> String.length t = 14%nat /\ all_chars is_digit t = true.
Proof.
  unfold is_tds. intros [H1 H2]%andb_true_iff. split; [by apply Nat.eqb_eq|done].
Qed.

Lemma is_hex32_inv h : is_hex32 h = true -> String.length h = 32%nat /\ all_chars is_hex h = true.
Proof.
  unfold is_hex32. intros [H1 H2]%andb_true_iff. split; [by apply Nat.eqb_eq|done].
Qed.

Lemma str_take_app_n n u s : String.length u = n -> str_take n (u +:+ s) = u.
Proof. intros <-. apply str_take_app. Qed.

Lemma str_drop_app_n n u s : String.length u = n -> str_drop n (u +:+ s) = s.
Proof. intros <-. apply str_drop_app. Qed.

Lemma rep_ok_app_n p n u s :
  String.length u = n -> all_chars p u = true -> rep_ok p n (u +:+ s) = true.
Proof. intros <-. apply rep_ok_app. Qed.

Lemma str_take_all n u : String.length u = n -> str_take n u = u.
Proof. intros H. rewrite <- (str_app_nil_r u) at 1. by apply str_take_app_n. Qed.

Lemma str_drop_all n u : String.length u = n -> str_drop n u = "".
Proof. intros H. rewrite <- (str_app_nil_r u) at 1. by apply str_drop_app_n. Qed.

Lemma rep_ok_all p n u :
  String.length u = n -> all_chars p u = true -> rep_ok p n u = true.
Proof. intros H ?. rewrite <- (str_app_nil_r u). by apply rep_ok_app_n. Qed.

Lemma parse_full_form tds h :
  is_tds tds = true -> is_hex32 h = true ->
  parse_full (tds +:+ "." +:+ h) = Some [tds; h].
Proof.
  intros [Ht1 Ht2]%is_tds_inv [Hh1 Hh2]%is_hex32_inv. unfold parse_full.
  rewrite (rep_ok_app_n _ _ _ _ Ht1 Ht2), (str_drop_app_n _ _ _ Ht1),
    (str_take_app_n _ _ _ Ht1).
  change ("." +:+ h) with (String "." h). cbv iota.
  rewrite (rep_ok_all _ _ _ Hh1 Hh2), (str_drop_all _ _ Hh1), (str_take_all _ _ Hh1).
  reflexivity.
Qed.

Lemma match_name_full tds h :
  is_tds tds = true -> is_hex32 h = true ->
  match_name (tds +:+ "." +:+ h) = Some [tds; h].
Proof. intros. rewrite match_name_parse, parse_full_form; done. Qed.

Lemma parse_full_legacy tds : is_tds tds = true -> parse_full tds = None.
Proof.
  intros [Ht1 Ht2]%is_tds_inv. unfold parse_full.
  rewrite (str_drop_all _ _ Ht1). by destruct (rep_ok _ _ _).
Qed.

Lemma match_name_legacy tds :
  is_tds tds = true -> match_name tds = Some [tds; ""].
Proof.
  intros Ht. rewrite match_name_parse, parse_full_legacy by done.
  destruct (is_tds_inv _ Ht) as [Ht1 Ht2]. unfold parse_legacy.
  by rewrite (rep_ok_all _ _ _ Ht1 Ht2), (str_drop_all _ _ Ht1), (str_take_all _ _ Ht1).
Qed.

Lemma rep_ok_inv p n s :
  rep_ok p n s = true ->
  String.length (str_take n s) = n /\ all_chars p (str_take n s) = true.
Proof.
  unfold rep_ok. intros [H1 H2]%andb_true_iff. split; [|done].
  apply str_take_length. by apply Nat.leb_le.
Qed.

Lemma at_end_inv s : at_end s = true -> s = "" \/ s = nl.
Proof.
  unfold at_end. intros [H|H]%orb_true_iff; apply String.eqb_eq in H; auto.
Qed.

(** Every accepted name is the 14 digits, then nothing or a dot and 32
    hexadecimal digits, then nothing or one newline. *)
Lemma match_name_inv base m :
  match_name base = Some m ->
  exists tds g2 tail,
    m = [tds; g2] /\ is_tds tds = true /\ tds = str_take 14 base /\
    (tail = "" \/ tail = nl) /\
    ((g2 = "" /\ base = tds +:+ tail) \/
     (is_hex32 g2 = true /\ base = tds +:+ "." +:+ g2 +:+ tail)).
Proof.
  rewrite match_name_parse. unfold parse_full, parse_legacy.
  destruct (rep_ok is_digit 14 base) eqn:E14; [|done].
  destruct (rep_ok_inv _ _ _ E14) as [Hl Hd].
  assert (Ht : is_tds (str_take 14 base) = true).
  { unfold is_tds. by rewrite Hl, Hd. }
  pose proof (str_take_drop 14 base) as Hb.
  destruct (str_drop 14 base) as [|c s2] eqn:Ed.
  - cbn. intros [= <-]. exists (str_take 14 base), "", "".
    rewrite str_app_nil_r in *. eauto 10.
  - destruct (Ascii.eqb "." c && rep_ok is_hex 32 s2 && at_end (str_drop 32 s2)) eqn:E.
    + apply andb_true_iff in E as [[Ec E32]%andb_true_iff Ee].
      apply Ascii.eqb_eq in Ec as <-.
      destruct (rep_ok_inv _ _ _ E32) as [Hl2 Hd2].
      intros [= <-]. exists (str_take 14 base), (str_take 32 s2), (str_drop 32 s2).
      split; [done|]. split; [done|]. split; [done|].
      split; [by apply at_end_inv|]. right. split.
      * unfold is_hex32. by rewrite Hl2, Hd2.
      * rewrite str_take_drop. done.
    + cbn [andb]. destruct (at_end (String c s2)) eqn:Ee; [|done].
      intros [= <-]. exists (str_take 14 base), "", (String c s2).
      split; [done|]. split; [done|]. split; [done|].
      split; [by apply at_end_inv|]. left. by rewrite Hb.
Qed.
(** ** The shape of a digest *)

Lemma is_lower_hex_is_hex c : is_lower_hex c = true -> is_hex c = true.
Proof.
  unfold is_lower_hex, is_hex. intros [->| ->]%orb_true_iff; [done|].
  by rewrite !orb_true_r.
Qed.

Lemma all_chars_impl (p q : ascii -> bool) s :
  (forall c, p c = true -> q c = true) -> all_chars p s = true -> all_chars q s = true.
Proof.
  intros Hpq. induction s as [|c s IH]; simpl; [done|].
  intros [Hc Hs]%andb_true_iff. by rewrite (Hpq _ Hc), IH.
Qed.

Lemma hexchar_lower n : 0 <= n < 16 -> is_lower_hex (Md5.hexchar n) = true.
Proof.
  intros Hn.
  assert (Hall : List.Forall (fun k => is_lower_hex (Md5.hexchar (Z.of_nat k)) = true)
                             (seq 0 16)) by (repeat constructor).
  rewrite List.Forall_forall in Hall.
  rewrite <- (Z2Nat.id n) by lia. apply Hall, in_seq. lia.
Qed.

Lemma hex_of_bytes_length bs :
  String.length (Md5.hex_of_bytes bs) = (2 * length bs)%nat.
Proof. induction bs as [|b bs IH]; simpl; [done|]. rewrite IH. lia. Qed.

Lemma hex_of_bytes_lower bs :
  Forall (fun b => 0 <= b < 256) bs ->
  all_chars is_lower_hex (Md5.hex_of_bytes bs) = true.
Proof.
  induction 1 as [|b bs Hb _ IH]; simpl; [done|].
  rewrite !hexchar_lower, IH; [done| |].
  - apply Z.mod_pos_bound. lia.
  - split; [apply Z.div_pos; lia|]. apply Z.div_lt_upper_bound; lia.
Qed.

Lemma le_bytes_length n x : length (Md5.le_bytes n x) = n.
Proof. revert x; induction n as [|n IH]; intros x; simpl; [done|]. by rewrite IH. Qed.

Lemma le_bytes_range n x : Forall (fun b => 0 <= b < 256) (Md5.le_bytes n x).
Proof.
  revert x; induction n as [|n IH]; intros x; simpl; constructor; [|apply IH].
  apply Z.mod_pos_bound. lia.
Qed.

Lemma digest_length msg : length (Md5.digest msg) = 16%nat.
Proof. unfold Md5.digest. by rewrite !length_app, !le_bytes_length. Qed.

Lemma digest_range msg : Forall (fun b => 0 <= b < 256) (Md5.digest msg).
Proof. unfold Md5.digest. repeat apply Forall_app_2; apply le_bytes_range. Qed.

(** [hexdigest()] is 32 characters among [0-9a-f]. *)
Lemma hexdigest_length msg : String.length (Md5.hexdigest msg) = 32%nat.
Proof. unfold Md5.hexdigest. by rewrite hex_of_bytes_length, digest_length. Qed.

Lemma hexdigest_lower msg : all_chars is_lower_hex (Md5.hexdigest msg) = true.
Proof. apply hex_of_bytes_lower, digest_range. Qed.

Lemma hexdigest_is_hex32 msg : is_hex32 (Md5.hexdigest msg) = true.
Proof.
  unfold is_hex32. rewrite hexdigest_length. cbn [Nat.eqb andb].
  eapply all_chars_impl; [apply is_lower_hex_is_hex|apply hexdigest_lower].
Qed.

Lemma hexdigest_nonempty msg : String.eqb (Md5.hexdigest msg) "" = false.
Proof.
  pose proof (hexdigest_length msg) as H.
  by destruct (Md5.hexdigest msg).
Qed.
(** ** States in normal form

    After [os.chdir(dir)] every system call of the script acts on the
    entries of the one directory [dir], which [St] exposes. *)

Lemma St_intro fs dir es sb wb e o l :
  fs !! dir = Some (mkDir es sb wb) -> mkState fs dir e o l = St fs dir es sb wb e o l.
Proof. intros H. unfold St. by rewrite insert_id. Qed.

Lemma lookup_entry_St fs dir es sb wb e o l n :
  lookup_entry (St fs dir es sb wb e o l) n = es !! n.
Proof. unfold lookup_entry, St. cbn. by rewrite lookup_insert_eq. Qed.

Lemma set_entries_St fs dir es sb wb e o l es' :
  set_entries es' (St fs dir es sb wb e o l) = St fs dir es' sb wb e o l.
Proof.
  unfold set_entries, St, set_fs. cbn. rewrite lookup_insert_eq. cbn.
  by rewrite insert_insert_eq.
Qed.

Lemma isfile_St fs dir es sb wb e o l n :
  os_path_isfile n (St fs dir es sb wb e o l)
  = (Val (is_reg (es !! n)), St fs dir es sb wb e o l).
Proof.
  unfold os_path_isfile, bind, get, ret. rewrite lookup_entry_St. reflexivity.
Qed.

Lemma stderr_write_St fs dir es sb wb e o l m :
  stderr_write m (St fs dir es sb wb e o l) = (Val tt, St fs dir es sb wb (e ++ [m]) o l).
Proof. reflexivity. Qed.

Lemma print_St fs dir es sb wb e o l x :
  print x (St fs dir es sb wb e o l) = (Val tt, St fs dir es sb wb e (o ++ [x]) l).
Proof. reflexivity. Qed.

Lemma glob_St fs dir es sb wb e o l t :
  glob_prefix t (St fs dir es sb wb e o l)
  = (Val (names_with t es), St fs dir es sb wb e o l).
Proof.
  unfold glob_prefix, glob_names, bind, get, ret, St. cbn.
  by rewrite lookup_insert_eq.
Qed.

Lemma md5stringForFile_St fs dir es sb wb e o l n :
  md5stringForFile n (St fs dir es sb wb e o l) =
  match es !! n with
  | Some (Reg g) =>
      if f_may_open g then
        if f_may_read g then (Val (PyStr (Md5.hexdigest (f_data g))), St fs dir es sb wb e o l)
        else (Exc IOError, St fs dir es sb wb e o l)
      else (Val PyFalse, St fs dir es sb wb (e ++ [CantOpen n dir]) o l)
  | _ => (Val PyFalse, St fs dir es sb wb (e ++ [CantOpen n dir]) o l)
  end.
Proof.
  unfold md5stringForFile, py_open, fd_read, try_except, bind, get, ret, raise.
  rewrite lookup_entry_St.
  destruct (es !! n) as [[g|]|]; try reflexivity.
  destruct (f_may_open g); [|reflexivity].
  destruct (f_may_read g); reflexivity.
Qed.

Lemma os_remove_St fs dir es sb wb e o l n :
  os_remove n (St fs dir es sb wb e o l) =
  if is_reg (es !! n) && wb
  then (Val tt, St fs dir (delete n es) sb wb e o (l ++ [Removed dir n]))
  else (Exc OSError, St fs dir es sb wb e o l).
Proof.
  unfold os_remove, bind, get, raise. rewrite lookup_entry_St.
  destruct (es !! n) as [[g|]|]; try reflexivity. cbn [is_reg andb].
  assert (Hw : cwd_may_write (St fs dir es sb wb e o l) = wb).
  { unfold cwd_may_write, St. cbn. by rewrite lookup_insert_eq. }
  assert (He : cwd_entries (St fs dir es sb wb e o l) = es).
  { unfold cwd_entries, St. cbn. by rewrite lookup_insert_eq. }
  rewrite Hw, He. destruct wb; [|reflexivity].
  unfold modify, log. rewrite set_entries_St. reflexivity.
Qed.

Lemma os_rename_St fs dir es sb wb e o l old new :
  os_rename old new (St fs dir es sb wb e o l) =
  if can_rename es wb old new
  then (Val tt, St fs dir (renamed_entries es old new) sb wb e o (l ++ [Renamed dir old new]))
  else (Exc OSError, St fs dir es sb wb e o l).
Proof.
  unfold os_rename, bind, get, raise, can_rename, renamed_entries. rewrite !lookup_entry_St.
  assert (Hw : cwd_may_write (St fs dir es sb wb e o l) = wb).
  { unfold cwd_may_write, St. cbn. by rewrite lookup_insert_eq. }
  assert (He : cwd_entries (St fs dir es sb wb e o l) = es).
  { unfold cwd_entries, St. cbn. by rewrite lookup_insert_eq. }
  rewrite Hw, He.
  destruct (es !! old) as [[g|]|]; try reflexivity;
    try (by destruct (es !! new) as [[?|]|]).
  destruct (es !! new) as [[g'|]|]; cbn; destruct wb; try reflexivity;
    unfold modify, log; rewrite set_entries_St; reflexivity.
Qed.

Lemma os_utime_St fs dir es sb wb e o l n a m :
  os_utime n a m (St fs dir es sb wb e o l) =
  match es !! n with
  | Some (Reg g) =>
      if f_may_utime g
      then (Val tt, St fs dir
              (<[n := Reg (mkFile (f_data g) m a (f_may_open g) (f_may_read g) (f_may_utime g))]> es)
              sb wb e o (l ++ [Touched dir n a m]))
      else (Exc OSError, St fs dir es sb wb e o l)
  | _ => (Exc OSError, St fs dir es sb wb e o l)
  end.
Proof.
  unfold os_utime, bind, get, raise. rewrite lookup_entry_St.
  assert (He : cwd_entries (St fs dir es sb wb e o l) = es).
  { unfold cwd_entries, St. cbn. by rewrite lookup_insert_eq. }
  rewrite He.
  destruct (es !! n) as [[g|]|]; try reflexivity.
  destruct (f_may_utime g); [|reflexivity].
  unfold modify, log. rewrite set_entries_St. reflexivity.
Qed.

Lemma tdsTouch_St mk fs dir es sb wb e o l y n :
  tdsTouch mk y n (St fs dir es sb wb e o l) =
  match Strptime.strptime y with
  | None => (Val false, St fs dir es sb wb (e ++ [BadTds y]) o l)
  | Some tm =>
      match es !! n with
      | Some (Reg g) =>
          match mk tm with
          | None => (Exc OverflowError, St fs dir es sb wb e o l)
          | Some t =>
              if f_may_utime g
              then (Val true, St fs dir (<[n := Reg (retime t g)]> es) sb wb e o
                                 (l ++ [Touched dir n t t]))
              else (Val false, St fs dir es sb wb (e ++ [CantUpdate n]) o l)
          end
      | _ => (Exc TypeError, St fs dir es sb wb e o l)
      end
  end.
Proof.
  unfold tdsTouch. destruct (Strptime.strptime y) as [tm|]; [|reflexivity].
  unfold bind. rewrite isfile_St.
  destruct (es !! n) as [[g|]|] eqn:En; try reflexivity. cbn [is_reg negb].
  destruct (mk tm) as [t|]; [|reflexivity].
  unfold try_except. rewrite os_utime_St, En.
  destruct (f_may_utime g) eqn:Eu; [unfold retime; rewrite Eu|]; reflexivity.
Qed.
Lemma group_1 a b : group [a; b] 1 = a.
Proof. reflexivity. Qed.

Lemma group_2 a b : group [a; b] 2 = b.
Proof. reflexivity. Qed.

Lemma renamed_entries_some es old new n :
  es !! old = Some n -> renamed_entries es old new = <[new := n]> (delete old es).
Proof. intros H. unfold renamed_entries. by rewrite H. Qed.

(** ** Symbolic execution

    [sym H] runs the script in [H : m s = (r, s')] with the equations
    above, using a hypothesis about a condition when there is one and
    splitting on the condition otherwise. *)

Ltac head_scrut t :=
  lazymatch t with
  | match ?x with _ => _ end => head_scrut x
  | (match ?x with _ => _ end) _ => head_scrut x
  | negb ?x => head_scrut x
  | andb ?x _ => head_scrut x
  | is_reg ?x => head_scrut x
  | is_subdir ?x => head_scrut x
  | _ => t
  end.

Ltac sym_rewrite H :=
  first
    [ rewrite isfile_St in H | rewrite stderr_write_St in H | rewrite print_St in H
    | rewrite glob_St in H | rewrite md5stringForFile_St in H
    | rewrite os_remove_St in H | rewrite os_rename_St in H; unfold can_rename in H
    | rewrite tdsTouch_St in H | rewrite hexdigest_nonempty in H
    | rewrite lookup_insert_eq in H | rewrite lookup_delete_eq in H
    | rewrite lookup_insert_ne in H by done | rewrite lookup_delete_ne in H by done
    | erewrite renamed_entries_some in H
        by (rewrite ?lookup_delete_ne by done; eassumption) ].

Ltac sym_destruct H :=
  lazymatch type of H with
  | ?lhs = _ =>
      let x := head_scrut lhs in
      lazymatch x with
      | lhs => fail
      | (_, _) => fail
      | String.eqb ?a ?b => destruct (String.eqb_spec a b)
      | _ _ =>
          first [ match goal with Hx : x = _ |- _ => rewrite Hx in H end
                | destruct x eqn:? ]
      | _ => is_var x; destruct x
      end
  end.

Ltac sym_simpl H :=
  cbv beta iota zeta in H; cbn [negb andb is_reg is_subdir py_not py_eq py_str] in H;
  rewrite ?group_1, ?group_2 in H.

Ltac sym H :=
  unfold retag_in_dir, rename_it, force_timestamp, bind, ret, raise, try_except in H;
  repeat first [progress sym_simpl H | sym_rewrite H | sym_destruct H; try done].

Lemma retag_enter mk path fs :
  process mk path (start fs) =
  match saneDirname path with
  | None => (Exc TypeError, start fs)
  | Some dir =>
      match fs !! dir with
      | None => (Val false, mkState fs "." [NoDir dir path] [] [])
      | Some (mkDir es sb wb) =>
          if sb then retag_in_dir mk dir path (St fs dir es sb wb [] [] [])
          else (Exc OSError, start fs)
      end
  end.
Proof.
  unfold process, tdsMD5retagFunc.
  destruct (saneDirname path) as [dir|]; [|reflexivity].
  unfold bind, modify, os_path_isdir, os_chdir, get, ret, raise, start, set_cwd.
  cbn -[retag_in_dir].
  destruct (fs !! dir) as [[es sb wb]|] eqn:E; cbn -[retag_in_dir]; [|reflexivity].
  rewrite E. cbn -[retag_in_dir].
  destruct sb; [|reflexivity]. cbn -[retag_in_dir]. by rewrite (St_intro _ _ _ _ _ _ _ _ E).
Qed.

Lemma process_in_dir mk path fs dir es wb :
  saneDirname path = Some dir ->
  fs !! dir = Some (mkDir es true wb) ->
  process mk path (start fs) = retag_in_dir mk dir path (St fs dir es true wb [] [] []).
Proof. intros Hd Hfs. by rewrite retag_enter, Hd, Hfs. Qed.

Lemma St_same fs dir es sb wb e o l :
  fs !! dir = Some (mkDir es sb wb) -> st_fs (St fs dir es sb wb e o l) = fs.
Proof. intros H. unfold St. cbn. by apply insert_id. Qed.


Lemma may_read_inv f : may_read f = true -> f_may_open f = true /\ f_may_read f = true.
Proof. unfold may_read. by intros ?%andb_true_iff. Qed.



Lemma entry_St fs dir es sb wb e o l n :
  entry (st_fs (St fs dir es sb wb e o l)) dir n = es !! n.
Proof. unfold entry, St. cbn. by rewrite lookup_insert_eq. Qed.


Ltac renamed_post_tac H Hne :=
  injection H as <- <-; unfold renamed_post, reported;
  rewrite !entry_St; cbn [St st_log st_stdout st_stderr app];
  rewrite ?lookup_insert_eq, ?(lookup_insert_ne _ _ _ _ (not_eq_sym Hne)),
    ?lookup_delete_eq;
  cbn [omap list_omap failure_of last];
  repeat split; eauto; try congruence; try done;
  intros (? & ? & ? & ? & ?); congruence.

Lemma retag_rename_free mk dir path fs es sb f m r s' :
  let base := os_path_basename path in
  let proposed := group m 1 +:+ "." +:+ Md5.hexdigest (f_data f) in
  es !! base = Some (Reg f) ->
  may_read f = true ->
  match_name base = Some m ->
  base <> proposed ->
  es !! proposed = None ->
  retag_in_dir mk dir path (St fs dir es sb true [] [] []) = (r, s') ->
  renamed_post mk dir base m f [] r s'.
Proof.
  intros base proposed Hb [Ho Hr]%may_read_inv Hm Hne Hp H.
  subst base proposed. sym H.
  all: renamed_post_tac H Hne.
Qed.

Lemma retag_rename_duplicate mk dir path fs es sb f g m r s' :
  let base := os_path_basename path in
  let proposed := group m 1 +:+ "." +:+ Md5.hexdigest (f_data f) in
  es !! base = Some (Reg f) ->
  may_read f = true ->
  match_name base = Some m ->
  base <> proposed ->
  es !! proposed = Some (Reg g) ->
  may_read g = true ->
  Md5.hexdigest (f_data g) = Md5.hexdigest (f_data f) ->
  retag_in_dir mk dir path (St fs dir es sb true [] [] []) = (r, s') ->
  renamed_post mk dir base m f [Removed dir proposed] r s'.
Proof.
  intros base proposed Hb [Ho Hr]%may_read_inv Hm Hne Hp [Hog Hrg]%may_read_inv Hd H.
  subst base proposed. sym H.
  all: renamed_post_tac H Hne.
Qed.

Lemma str_ne_app_dot t x : t <> t +:+ "." +:+ x.
Proof.
  intros H. apply (f_equal String.length) in H.
  rewrite str_app_length in H. change ("." +:+ x) with (String "." x) in H.
  cbn [String.length] in H. lia.
Qed.

(** C2, as amended.  When the canonical name of the processed file is
    held by a readable regular file with the same digest, in a directory
    that may be written, the call removes that file and renames the
    processed file into its place.  It succeeds, reporting no failure and
    printing the notice, exactly when the timestamp can then be applied:
    the code is a date-time, [mktime] accepts it and the file's
    timestamps may be set.  When the code is not a date-time the call
    fails with [TimestampApplyFailed], the removal and the rename being
    done. *)
Theorem process_duplicate mk path dir fs es f g m :
  let base := os_path_basename path in
  let tds := group m 1 in
  let md5 := Md5.hexdigest (f_data f) in
  let proposed := tds +:+ "." +:+ md5 in
  saneDirname path = Some dir ->
  fs !! dir = Some (mkDir es true true) ->
  es !! base = Some (Reg f) ->
  may_read f = true ->
  match_name base = Some m ->
  base <> proposed ->
  es !! proposed = Some (Reg g) ->
  may_read g = true ->
  Md5.hexdigest (f_data g) = md5 ->
  let '(r, s') := process mk path (start fs) in
  (exists rest,
     st_log s' = [Removed dir proposed] ++ Renamed dir base proposed :: rest
     /\ Forall (fun a => is_touched a = true) rest) /\
  entry (st_fs s') dir base = None /\
  (exists f', entry (st_fs s') dir proposed = Some (Reg f') /\ f_data f' = f_data f) /\
  (r = Val true <->
   exists tm t, Strptime.strptime tds = Some tm /\ mk tm = Some t /\ f_may_utime f = true) /\
  (r = Val true ->
   reported s' = [] /\ st_stdout s' = [tds +:+ ": " +:+ group m 2 +:+ " -> " +:+ md5]) /\
  (r <> Val true -> st_stdout s' = []) /\
  (Strptime.strptime tds = None ->
   r = Val false /\ last (reported s') = Some TimestampApplyFailed).
Proof.
  intros base tds md5 proposed Hd Hfs Hb Hf Hm Hne Hp Hg Hdig.
  rewrite (process_in_dir _ _ _ _ _ _ Hd Hfs).
  destruct (retag_in_dir _ _ _ _) as [r s'] eqn:H.
  by apply (retag_rename_duplicate mk dir path fs es true f g m).
Qed.

(** C5, as amended.  A readable file whose base name is 14 digits, in a
    directory that may be written, whose canonical name is free or held
    by a readable file with the same digest, is renamed to
    [tds.digest], the digest in lowercase hexadecimal.  The notice, with
    an empty old digest, is printed exactly when the call succeeds, which
    is when the timestamp can then be applied; otherwise nothing is
    printed, the rename being done. *)
Theorem process_legacy_name mk path dir fs es f :
  let base := os_path_basename path in
  let md5 := Md5.hexdigest (f_data f) in
  let proposed := base +:+ "." +:+ md5 in
  saneDirname path = Some dir ->
  fs !! dir = Some (mkDir es true true) ->
  es !! base = Some (Reg f) ->
  may_read f = true ->
  is_tds base = true ->
  (es !! proposed = None \/
   exists g, es !! proposed = Some (Reg g) /\ may_read g = true /\
             Md5.hexdigest (f_data g) = md5) ->
  let '(r, s') := process mk path (start fs) in
  In (Renamed dir base proposed) (st_log s') /\
  entry (st_fs s') dir base = None /\
  (exists f', entry (st_fs s') dir proposed = Some (Reg f') /\ f_data f' = f_data f) /\
  all_chars is_lower_hex md5 = true /\
  (r = Val true <->
   exists tm t, Strptime.strptime base = Some tm /\ mk tm = Some t /\ f_may_utime f = true) /\
  (r = Val true -> st_stdout s' = [base +:+ ":  -> " +:+ md5]) /\
  (r <> Val true -> st_stdout s' = []).
Proof.
  intros base md5 proposed Hd Hfs Hb Hf Ht Hp.
  rewrite (process_in_dir _ _ _ _ _ _ Hd Hfs).
  destruct (retag_in_dir _ _ _ _) as [r s'] eqn:H.
  pose proof (match_name_legacy _ Ht) as Hm.
  pose proof (str_ne_app_dot base md5) as Hne.
  assert (Hpost : exists pre, renamed_post mk dir base [base; ""] f pre r s').
  { destruct Hp as [Hp|(g & Hp & Hg & Hdig)].
    - exists []. by apply (retag_rename_free mk dir path fs es true f [base; ""]).
    - eexists. by apply (retag_rename_duplicate mk dir path fs es true f g [base; ""]). }
  destruct Hpost as (pre & (rest & Hlog & _) & Hgone & Hthere & Hiff & Hok & Hko & _).
  rewrite group_1, group_2 in *.
  split; [rewrite Hlog; apply in_or_app; right; by left|].
  split; [done|]. split; [done|]. split; [apply hexdigest_lower|].
  split; [done|]. split; [|done].
  intros Hr. by destruct (Hok Hr).
Qed.
(** ** Every way a call can end

    [retag_outcome mk dir base es r es' l]: from the entries [es] the call
    ends with result [r], entries [es'] and log [l]. *)

Ltac ro_rename :=
  eapply RO_rename;
  [ eassumption
  | eassumption
  | done
  | first [ left; split; [reflexivity|eassumption]
          | right; eexists; split; [reflexivity|]; split; [eassumption|congruence] ]
  | rewrite ?lookup_insert_ne by done; apply lookup_delete_eq
  | eexists; split; [apply lookup_insert_eq|reflexivity]
  | first [ left; split; [reflexivity|done]
          | right; eexists; split; reflexivity ] ].

Lemma retag_outcomes mk dir path fs es sb wb r s' :
  retag_in_dir mk dir path (St fs dir es sb wb [] [] []) = (r, s') ->
  exists es' e o l,
    s' = St fs dir es' sb wb e o l /\
    Forall (fun d => failure_of d <> Some NoSuchDirectory) e /\
    retag_outcome mk dir (os_path_basename path) es r es' l.
Proof.
  intros H. sym H.
  all: injection H as <- <-; do 4 eexists; split; [reflexivity|].
  all: split; [cbn [app]; repeat constructor; done|].
  all: cbn [app].
  all: try (by apply RO_same).
  all: try match goal with
    | e : os_path_basename ?p = _ +:+ _,
      Hb : ?m !! os_path_basename ?p = _,
      Hp : ?m !! (_ +:+ _) = _ |- _ =>
        rewrite <- e in Hp |- *; rewrite Hb in Hp; simplify_eq
    end.
  all: try (by eapply RO_touch; eauto).
  all: ro_rename.
Qed.

Lemma retag_no_file mk dir path fs es sb wb :
  is_reg (es !! os_path_basename path) = false ->
  retag_in_dir mk dir path (St fs dir es sb wb [] [] [])
  = (Val false, St fs dir es sb wb [NoFile (os_path_basename path) path dir] [] []).
Proof.
  intros Hb. destruct (retag_in_dir _ _ _ _) as [r s'] eqn:H.
  unfold retag_in_dir, bind in H. rewrite isfile_St, Hb in H. by rewrite <- H.
Qed.

Lemma retag_touch_only mk dir path fs es sb wb f m tm t :
  let base := os_path_basename path in
  es !! base = Some (Reg f) ->
  f_may_open f = true -> f_may_read f = true ->
  match_name base = Some m ->
  base = group m 1 +:+ "." +:+ Md5.hexdigest (f_data f) ->
  Strptime.strptime (group m 1) = Some tm -> mk tm = Some t ->
  f_may_utime f = true ->
  exists e,
    retag_in_dir mk dir path (St fs dir es sb wb [] [] [])
    = (Val true, St fs dir (<[base := Reg (retime t f)]> es) sb wb e []
                    [Touched dir base t t]).
Proof.
  intros base Hb Ho Hr Hm Hbase Htm Hmk Hu.
  destruct (retag_in_dir _ _ _ _) as [r s'] eqn:H.
  subst base. unfold retag_in_dir in H. cbv zeta in H.
  rewrite Hbase in H, Hb, Hm |- *. sym H.
  all: try congruence.
  all: injection H as <- <-; eexists; reflexivity.
Qed.

Lemma retime_retime t f : retime t (retime t f) = retime t f.
Proof. reflexivity. Qed.

Lemma St_rebase fs dir es0 sb0 wb0 e0 o0 l0 es sb wb e o l :
  St (st_fs (St fs dir es0 sb0 wb0 e0 o0 l0)) dir es sb wb e o l
  = St fs dir es sb wb e o l.
Proof. unfold St. cbn. by rewrite insert_insert_eq. Qed.

(** C7.  A second call on the same path, on the file system the first
    call left, renames nothing and leaves that file system as it is, the
    timestamps of every file included. *)
Theorem process_idempotent mk path fs :
  let '(r1, s1) := process mk path (start fs) in
  let '(r2, s2) := process mk path (start (st_fs s1)) in
  Forall (fun a => is_renamed a = false) (st_log s2) /\ st_fs s2 = st_fs s1.
Proof.
  destruct (process mk path (start fs)) as [r1 s1] eqn:H1.
  destruct (process mk path (start (st_fs s1))) as [r2 s2] eqn:H2.
  rewrite retag_enter in H1.
  destruct (saneDirname path) as [dir|] eqn:Hd.
  2:{ injection H1 as <- <-. cbn [st_fs start] in H2. rewrite retag_enter, Hd in H2.
      by injection H2 as <- <-. }
  destruct (fs !! dir) as [[es sb wb]|] eqn:Hfs.
  2:{ injection H1 as <- <-. cbn [st_fs start] in H2. rewrite retag_enter, Hd, Hfs in H2.
      by injection H2 as <- <-. }
  destruct sb.
  2:{ injection H1 as <- <-. cbn [st_fs start] in H2. rewrite retag_enter, Hd, Hfs in H2.
      by injection H2 as <- <-. }
  destruct (retag_outcomes _ _ _ _ _ _ _ _ _ H1) as (es' & e & o & l & -> & _ & Hout).
  rewrite retag_enter, Hd in H2. unfold St at 1 in H2. cbn [st_fs] in H2.
  rewrite lookup_insert_eq in H2.
  fold (St fs dir es' true wb e o l) in H2. rewrite St_rebase in H2.
  inversion Hout; subst.
  - (* nothing changed: the second call is the first *)
    rewrite H1 in H2. injection H2 as <- <-.
    split; [constructor|]. reflexivity.
  - (* timestamps only *)
    destruct (retag_touch_only mk dir path fs
                (<[os_path_basename path := Reg (retime t f)]> es) true wb (retime t f) m tm t)
      as [e2 He2]; try done.
    { apply lookup_insert_eq. }
    rewrite He2 in H2. injection H2 as <- <-.
    split; [repeat constructor|].
    unfold St. cbn [st_fs]. by rewrite retime_retime, insert_insert_eq.
  - (* renamed: the old name is gone *)
    rewrite retag_no_file in H2.
    2:{ match goal with Hn : es' !! _ = None |- _ => by rewrite Hn end. }
    injection H2 as <- <-. split; [constructor|]. reflexivity.
Qed.

Lemma match_name_tds base m :
  match_name base = Some m ->
  group m 1 = str_take 14 base /\ String.length (group m 1) = 14%nat.
Proof.
  intros (tds & g2 & tail & -> & Ht & -> & _)%match_name_inv.
  rewrite group_1. split; [done|]. by apply is_tds_inv in Ht as [? _].
Qed.

(** C8.  A call performs at most one rename, at most one removal and
    at most one timestamp update; what it removes is a verified
    duplicate; the processed file keeps its bytes and the 14 digits of
    its name. *)
Theorem process_frame mk path fs :
  let '(r, s') := process mk path (start fs) in
  (count is_renamed (st_log s') <= 1)%nat /\
  (count is_removed (st_log s') <= 1)%nat /\
  (count is_touched (st_log s') <= 1)%nat /\
  Forall (removed_is_duplicate fs path) (st_log s') /\
  processed_file_kept fs path s'.
Proof.
  destruct (process mk path (start fs)) as [r s'] eqn:H.
  rewrite retag_enter in H. unfold processed_file_kept.
  destruct (saneDirname path) as [dir|] eqn:Hd.
  2:{ injection H as <- <-. cbn. repeat split; auto with lia. }
  assert (Hkeep : forall s0 : state, st_fs s0 = fs ->
    match entry fs dir (os_path_basename path) with
    | Some (Reg f) =>
        exists name' f',
          entry (st_fs s0) dir name' = Some (Reg f') /\ f_data f' = f_data f /\
          (name' = os_path_basename path \/
           name' = str_take 14 (os_path_basename path) +:+ "." +:+ Md5.hexdigest (f_data f)) /\
          str_take 14 name' = str_take 14 (os_path_basename path)
    | _ => True
    end).
  { intros s0 ->. destruct (entry fs dir _) as [[f|]|] eqn:E; [|done..].
    exists (os_path_basename path), f. auto. }
  destruct (fs !! dir) as [[es sb wb]|] eqn:Hfs.
  2:{ injection H as <- <-. repeat split; try (cbn; lia); [constructor|by apply Hkeep]. }
  destruct sb.
  2:{ injection H as <- <-. repeat split; try (cbn; lia); [constructor|by apply Hkeep]. }
  destruct (retag_outcomes _ _ _ _ _ _ _ _ _ H) as (es' & e & o & l & -> & _ & Hout).
  clear H.
  assert (He : forall n, entry fs dir n = es !! n).
  { intros n. unfold entry. by rewrite Hfs. }
  rewrite He.
  inversion Hout; subst.
  - (* nothing changed *)
    repeat split; try (cbn; lia); [constructor|].
    destruct (es' !! _) as [[f|]|] eqn:E; [|done..].
    exists (os_path_basename path), f. rewrite entry_St. auto.
  - (* timestamps only *)
    repeat split; try (cbn; lia); [repeat constructor|].
    match goal with Hb : es !! _ = Some _ |- _ => rewrite Hb end.
    exists (os_path_basename path), (retime t f).
    rewrite entry_St, lookup_insert_eq. auto.
  - (* renamed *)
    match goal with Hm : match_name _ = Some _ |- _ =>
      destruct (match_name_tds _ _ Hm) as [Htds Hlen] end.
    match goal with Hb : es !! _ = Some _ |- _ => rewrite Hb end.
    assert (Hlog : exists l0, l = pre ++ Renamed dir (os_path_basename path) proposed :: l0
                              /\ (l0 = [] \/ exists t, l0 = [Touched dir proposed t t])).
    { match goal with Hl : _ \/ _ |- _ => destruct Hl as [[-> _]|(t & -> & _)] end; eauto. }
    destruct Hlog as (l0 & -> & Hl0). cbn [St st_log].
    assert (Hpre : pre = [] \/
      pre = [Removed dir proposed] /\ removed_is_duplicate fs path (Removed dir proposed)).
    { match goal with Hp : _ \/ _ |- _ => destruct Hp as [[-> _]|(g & -> & Hg & Hdig)] end;
        [by left|right]. split; [done|]. cbn. rewrite !He. eauto 10. }
    split; [|split; [|split; [|split]]].
    + destruct Hpre as [->|[-> _]], Hl0 as [->|[t ->]]; cbn; lia.
    + destruct Hpre as [->|[-> _]], Hl0 as [->|[t ->]]; cbn; lia.
    + destruct Hpre as [->|[-> _]], Hl0 as [->|[t ->]]; cbn; lia.
    + destruct Hpre as [->|[-> Hdup]], Hl0 as [->|[t ->]]; repeat constructor; done.
    + match goal with Hf : exists f', _ |- _ => destruct Hf as (f' & Hf' & Hdata) end.
      exists proposed, f'. rewrite entry_St. split; [done|]. split; [done|]. subst proposed.
      rewrite <- Htds. split; [by right|].
      rewrite <- Hlen at 1. by rewrite str_take_app.
Qed.


(** ** [strptime] on 14 digits *)

Lemma consumed_1 a s : consumed (String a s) s = String a "".
Proof.
  unfold consumed. cbn [String.length].
  replace (S (String.length s) - String.length s)%nat with 1%nat by lia.
  reflexivity.
Qed.

Lemma consumed_2 a b s : consumed (String a (String b s)) s = String a (String b "").
Proof.
  unfold consumed. cbn [String.length].
  replace (S (S (String.length s)) - String.length s)%nat with 2%nat by lia.
  reflexivity.
Qed.

Lemma consumed_4 a b c e s :
  consumed (String a (String b (String c (String e s)))) s
  = String a (String b (String c (String e ""))).
Proof.
  unfold consumed. cbn [String.length].
  replace (S (S (S (S (String.length s)))) - String.length s)%nat with 4%nat by lia.
  reflexivity.
Qed.

Ltac run_group :=
  cbn [re_run]; rewrite ?consumed_1, ?consumed_2;
  repeat match goal with
  | |- context [Ascii.eqb ?x ?y] => destruct (Ascii.eqb x y)
  | |- context [in_range ?x ?y ?z] => destruct (in_range x y z)
  | |- context [is_digit ?z] => destruct (is_digit z)
  end; cbn [andb orb pick];
  repeat match goal with
  | |- context [match ?k with Some _ => _ | None => _ end] => destruct k
  end; reflexivity.

Lemma run_m {R} a b s caps (k : string -> list string -> option R) :
  re_run re_m (String a (String b s)) caps k =
  pick (two_m a b) (in_range "1" "9" a)
       (k s (caps ++ [String a (String b "")])) (k (String b s) (caps ++ [String a ""])).
Proof. unfold re_m, two_m, chr, rng, d. run_group. Qed.

Lemma run_d {R} a b s caps (k : string -> list string -> option R) :
  Ascii.eqb " " a = false ->
  re_run re_d (String a (String b s)) caps k =
  pick (two_d a b) (in_range "1" "9" a)
       (k s (caps ++ [String a (String b "")])) (k (String b s) (caps ++ [String a ""])).
Proof. intros Hsp. unfold re_d, two_d, chr, rng, d. cbn [re_run]. rewrite Hsp. run_group. Qed.

Lemma run_H {R} a b s caps (k : string -> list string -> option R) :
  is_digit a = true ->
  re_run re_H (String a (String b s)) caps k =
  pick (two_H a b) true
       (k s (caps ++ [String a (String b "")])) (k (String b s) (caps ++ [String a ""])).
Proof. intros Hd. unfold re_H, two_H, chr, rng, d. cbn [re_run]. rewrite Hd. run_group. Qed.

Lemma run_M {R} a b s caps (k : string -> list string -> option R) :
  is_digit a = true ->
  re_run re_M (String a (String b s)) caps k =
  pick (two_M a b) true
       (k s (caps ++ [String a (String b "")])) (k (String b s) (caps ++ [String a ""])).
Proof. intros Hd. unfold re_M, two_M, chr, rng, d. cbn [re_run]. rewrite Hd. run_group. Qed.

Lemma run_S {R} a b s caps (k : string -> list string -> option R) :
  is_digit a = true ->
  re_run re_S (String a (String b s)) caps k =
  pick (two_S a b) true
       (k s (caps ++ [String a (String b "")])) (k (String b s) (caps ++ [String a ""])).
Proof. intros Hd. unfold re_S, two_S, chr, rng, d. cbn [re_run]. rewrite Hd. run_group. Qed.

Lemma run_Y {R} a b c e s caps (k : string -> list string -> option R) :
  is_digit a = true -> is_digit b = true -> is_digit c = true -> is_digit e = true ->
  re_run re_Y (String a (String b (String c (String e s)))) caps k =
  k s (caps ++ [String a (String b (String c (String e "")))]).
Proof.
  intros Ha Hb Hc He. unfold re_Y, d. cbn [re_run].
  by rewrite Ha, Hb, Hc, He, consumed_4.
Qed.

Lemma pick_from {R} two one (K2 K1 : option R) x :
  pick two one K2 K1 = Some x -> two = true /\ K2 = Some x \/ K1 = Some x.
Proof.
  unfold pick. destruct two, K2 as [y|], one; intros; simplify_eq; auto.
Qed.

Lemma pick_two {R} one (K2 K1 : option R) x :
  K2 = Some x -> pick true one K2 K1 = Some x.
Proof. by intros ->. Qed.

Section Group.
Variable g : re.
Variable two : ascii -> ascii -> bool.
Variable one : ascii -> bool.
Hypothesis formula :
  forall a b s caps (k : string -> list string -> option (list string * string)),
    is_digit a = true ->
    re_run g (String a (String b s)) caps k =
    pick (two a b) (one a)
         (k s (caps ++ [String a (String b "")])) (k (String b s) (caps ++ [String a ""])).

Lemma bounded_group k n :
  bounded k n -> bounded (fun s caps => re_run g s caps k) (n + 2).
Proof.
  intros Hk s caps x Hs Hrun Hx.
  destruct s as [|a [|b s]]; cbn [String.length]; try lia.
  cbn [all_chars] in Hs. apply andb_true_iff in Hs as [Ha Hs].
  rewrite formula in Hrun by done.
  apply pick_from in Hrun as [[_ H2]|H1].
  - apply andb_true_iff in Hs as [_ Hs]. specialize (Hk _ _ _ Hs H2 Hx). lia.
  - change (all_chars is_digit (String b s) = true) in Hs.
    specialize (Hk _ _ _ Hs H1 Hx). cbn [String.length] in Hk. lia.
Qed.

Lemma tight_group k n a b s caps x :
  bounded k n -> String.length s = n ->
  all_chars is_digit (String a (String b s)) = true ->
  re_run g (String a (String b s)) caps k = Some x -> snd x = "" ->
  two a b = true /\ k s (caps ++ [String a (String b "")]) = Some x.
Proof.
  intros Hk Hn Hs Hrun Hx.
  cbn [all_chars] in Hs. apply andb_true_iff in Hs as [Ha Hs].
  rewrite formula in Hrun by done.
  apply pick_from in Hrun as [H2|H1]; [done|].
  change (all_chars is_digit (String b s) = true) in Hs.
  specialize (Hk _ _ _ Hs H1 Hx). cbn [String.length] in Hk. lia.
Qed.
End Group.

Lemma digit_cases a :
  is_digit a = true ->
  In a ["0"; "1"; "2"; "3"; "4"; "5"; "6"; "7"; "8"; "9"]%char.
Proof.
  destruct a as [[] [] [] [] [] [] [] []]; vm_compute; intros H;
    try discriminate H; tauto.
Qed.

Lemma digit_not_space a : is_digit a = true -> Ascii.eqb " " a = false.
Proof.
  intros H. destruct (Ascii.eqb_spec " " a) as [<-|]; [discriminate H|done].
Qed.

Lemma bounded_end : bounded k_end 0.
Proof.
  intros s caps x _ [= <-] Hx. cbn in Hx. subst. cbn. lia.
Qed.

Lemma bounded_S : bounded k_S 2.
Proof.
  exact (bounded_group re_S two_S (fun _ => true)
           ltac:(intros; by apply run_S) k_end 0 bounded_end).
Qed.

Lemma bounded_M : bounded k_M 4.
Proof.
  exact (bounded_group re_M two_M (fun _ => true)
           ltac:(intros; by apply run_M) k_S 2 bounded_S).
Qed.

Lemma bounded_H : bounded k_H 6.
Proof.
  exact (bounded_group re_H two_H (fun _ => true)
           ltac:(intros; by apply run_H) k_M 4 bounded_M).
Qed.

Lemma bounded_d : bounded k_d 8.
Proof.
  exact (bounded_group re_d two_d (in_range "1" "9")
           ltac:(intros; by apply run_d, digit_not_space) k_H 6 bounded_H).
Qed.

(** The 14 digits of a code, spelled out. *)
Lemma is_tds_chars code :
  is_tds code = true ->
  exists c0 c1 c2 c3 c4 c5 c6 c7 c8 c9 c10 c11 c12 c13,
    code = String c0 (String c1 (String c2 (String c3 (String c4 (String c5
           (String c6 (String c7 (String c8 (String c9 (String c10 (String c11
           (String c12 (String c13 ""))))))))))))).
Proof.
  intros [Hl _]%is_tds_inv.
  do 14 (destruct code as [|? code]; [discriminate Hl|]).
  destruct code; [|discriminate Hl]. eauto 20.
Qed.

Ltac digits :=
  cbn [all_chars];
  repeat match goal with
  | Hx : is_digit ?c = true |- context [is_digit ?c] => rewrite Hx
  end; reflexivity.

Lemma re_match_format_sound code caps :
  is_tds code = true ->
  re_match re_format code = Some (caps, "") ->
  format_ok code = true /\ caps = groups_of code.
Proof.
  intros Ht H. pose proof Ht as [_ Hd]%is_tds_inv.
  destruct (is_tds_chars _ Ht)
    as (c0 & c1 & c2 & c3 & c4 & c5 & c6 & c7 & c8 & c9 & c10 & c11 & c12 & c13 & ->).
  cbn [all_chars] in Hd.
  repeat match type of Hd with (_ && _ = true) => apply andb_true_iff in Hd as [? Hd] end.
  change (re_match re_format ?s) with (re_run re_Y s [] k_m) in H.
  rewrite run_Y in H by done.
  apply (tight_group re_m two_m (in_range "1" "9") ltac:(intros; apply run_m) k_d 8) in H
    as [Hm H]; [|apply bounded_d|done|digits|done].
  apply (tight_group re_d two_d (in_range "1" "9")
           ltac:(intros; by apply run_d, digit_not_space) k_H 6) in H
    as [Hdd H]; [|apply bounded_H|done|digits|done].
  apply (tight_group re_H two_H (fun _ => true) ltac:(intros; by apply run_H) k_M 4) in H
    as [HH H]; [|apply bounded_M|done|digits|done].
  apply (tight_group re_M two_M (fun _ => true) ltac:(intros; by apply run_M) k_S 2) in H
    as [HM H]; [|apply bounded_S|done|digits|done].
  apply (tight_group re_S two_S (fun _ => true) ltac:(intros; by apply run_S) k_end 0) in H
    as [HS H]; [|apply bounded_end|done|digits|done].
  injection H as <-.
  split; [|reflexivity].
  unfold format_ok. cbn. by rewrite Hm, Hdd, HH, HM, HS.
Qed.

Lemma re_match_format_complete code :
  is_tds code = true -> format_ok code = true ->
  re_match re_format code = Some (groups_of code, "").
Proof.
  intros Ht Hok. pose proof Ht as [_ Hd]%is_tds_inv.
  destruct (is_tds_chars _ Ht)
    as (c0 & c1 & c2 & c3 & c4 & c5 & c6 & c7 & c8 & c9 & c10 & c11 & c12 & c13 & ->).
  cbn [all_chars] in Hd.
  repeat match type of Hd with (_ && _ = true) => apply andb_true_iff in Hd as [? Hd] end.
  unfold format_ok in Hok. cbn in Hok.
  repeat match type of Hok with (_ && _ = true) => apply andb_true_iff in Hok as [Hok ?] end.
  change (re_match re_format ?s) with (re_run re_Y s [] k_m).
  rewrite run_Y by done.
  unfold k_m. rewrite run_m. rewrite Hok. apply pick_two.
  unfold k_d. rewrite run_d by by apply digit_not_space.
  match goal with Hx : two_d _ _ = true |- _ => rewrite Hx end. apply pick_two.
  unfold k_H. rewrite run_H by done.
  match goal with Hx : two_H _ _ = true |- _ => rewrite Hx end. apply pick_two.
  unfold k_M. rewrite run_M by done.
  match goal with Hx : two_M _ _ = true |- _ => rewrite Hx end. apply pick_two.
  unfold k_S. rewrite run_S by done.
  match goal with Hx : two_S _ _ = true |- _ => rewrite Hx end. apply pick_two.
  reflexivity.
Qed.

Lemma strptime_tds code :
  is_tds code = true ->
  strptime code = if format_ok code then tm_of code else None.
Proof.
  intros Ht. unfold strptime.
  destruct (format_ok code) eqn:Hok.
  - rewrite (re_match_format_complete _ Ht Hok). reflexivity.
  - destruct (re_match re_format code) as [[caps rest]|] eqn:Hm; [|done].
    destruct rest as [|c rest]; [|done].
    apply re_match_format_sound in Hm as [Hok' _]; [congruence|done].
Qed.

(** *** The groups as numbers *)

Ltac enum_digits Ha Hb :=
  apply digit_cases in Ha; apply digit_cases in Hb;
  cbn [In] in Ha, Hb; destruct_or!; subst; try done; vm_compute; reflexivity.

Lemma two_m_range a b :
  is_digit a = true -> is_digit b = true ->
  two_m a b = (1 <=? int2 a b) && (int2 a b <=? 12).
Proof. intros Ha Hb. enum_digits Ha Hb. Qed.

Lemma two_d_range a b :
  is_digit a = true -> is_digit b = true ->
  two_d a b = (1 <=? int2 a b) && (int2 a b <=? 31).
Proof. intros Ha Hb. enum_digits Ha Hb. Qed.

Lemma two_H_range a b :
  is_digit a = true -> is_digit b = true -> two_H a b = (int2 a b <=? 23).
Proof. intros Ha Hb. enum_digits Ha Hb. Qed.

Lemma two_M_range a b :
  is_digit a = true -> is_digit b = true -> two_M a b = (int2 a b <=? 59).
Proof. intros Ha Hb. enum_digits Ha Hb. Qed.

Lemma two_S_range a b :
  is_digit a = true -> is_digit b = true -> two_S a b = (int2 a b <=? 61).
Proof. intros Ha Hb. enum_digits Ha Hb. Qed.

Lemma days_in_month_le y m : days_in_month y m <= 31.
Proof.
  unfold days_in_month.
  repeat match goal with |- context [if ?c then _ else _] => destruct c end; lia.
Qed.

Lemma strptime_accepted code :
  is_tds code = true ->
  strptime code = if accepted code then tm_of code else None.
Proof.
  intros Ht. rewrite (strptime_tds _ Ht).
  pose proof Ht as [_ Hd]%is_tds_inv.
  destruct (is_tds_chars _ Ht)
    as (c0 & c1 & c2 & c3 & c4 & c5 & c6 & c7 & c8 & c9 & c10 & c11 & c12 & c13 & ->).
  cbn [all_chars] in Hd.
  repeat match type of Hd with (_ && _ = true) => apply andb_true_iff in Hd as [? Hd] end.
  unfold format_ok, accepted, tm_of, field.
  cbn [groups_of str_take str_drop pair_ok].
  rewrite two_m_range, two_d_range, two_H_range, two_M_range, two_S_range by done.
  fold (int2 c4 c5) (int2 c6 c7) (int2 c8 c9) (int2 c10 c11) (int2 c12 c13).
  set (y := int _).
  pose proof (days_in_month_le y (int2 c4 c5)) as Hdim.
  unfold date_ok.
  destruct (Z.leb_spec 1 y), (Z.leb_spec y 9999), (Z.leb_spec 1 (int2 c4 c5)),
    (Z.leb_spec (int2 c4 c5) 12), (Z.leb_spec 1 (int2 c6 c7)),
    (Z.leb_spec (int2 c6 c7) (days_in_month y (int2 c4 c5))),
    (Z.leb_spec (int2 c6 c7) 31), (Z.leb_spec (int2 c8 c9) 23),
    (Z.leb_spec (int2 c10 c11) 59), (Z.leb_spec (int2 c12 c13) 61);
    cbn [andb]; try reflexivity; lia.
Qed.



(** ** The script at sample inputs *)

Example process_legacy_sample :
  let '(r, s') := process (mktime_fixed 0) "20200101000000" (start (here es_legacy)) in
  r = Val true /\
  st_stdout s' = ["20200101000000:  -> 900150983cd24fb0d6963f7d28e17f72"] /\
  st_log s' = [Renamed "." "20200101000000" "20200101000000.900150983cd24fb0d6963f7d28e17f72";
               Touched "." "20200101000000.900150983cd24fb0d6963f7d28e17f72"
                       1577836800 1577836800].
Proof. vm_compute. done. Qed.

(** *** What escapes the script *)

Lemma tdsTouch_not_file mk code name s tm :
  strptime code = Some tm ->
  is_reg (lookup_entry s name) = false ->
  tdsTouch mk code name s = (Exc TypeError, s).
Proof.
  intros Htm Hn. unfold tdsTouch. rewrite Htm.
  cbv beta iota delta [bind os_path_isfile get ret stderr_write2 raise].
  unfold is_reg in Hn. by destruct (lookup_entry s name) as [[g|]|].
Qed.

Lemma md5stringForFile_read_error name s f :
  lookup_entry s name = Some (Reg f) ->
  f_may_open f = true -> f_may_read f = false ->
  md5stringForFile name s = (Exc IOError, s).
Proof.
  intros Hn Ho Hr.
  cbv beta iota delta [md5stringForFile py_open fd_read try_except bind get ret raise].
  by rewrite Hn, Ho, Hr.
Qed.

Lemma md5stringForFile_open_error name s :
  match lookup_entry s name with
  | Some (Reg f) => f_may_open f = false
  | _ => True
  end ->
  exists s', md5stringForFile name s = (Val PyFalse, s') /\
             st_stderr s' = st_stderr s ++ [CantOpen name (st_cwd s)] /\
             st_fs s' = st_fs s /\ st_log s' = st_log s.
Proof.
  intros Hn.
  cbv beta iota delta [md5stringForFile py_open fd_read try_except bind get ret raise
                       os_getcwd stderr_write modify].
  destruct (lookup_entry s name) as [[f|]|]; [rewrite Hn|..]; eexists; split; done.
Qed.

(** The loop goes on to the next path after a call that returns, and
    stops with the exception of a call that raises. *)
Lemma main_loop_next mk f rest s b s' :
  process mk (str_strip f) s = (Val b, s') ->
  main_loop mk (f :: rest) s = main_loop mk rest s'.
Proof.
  unfold process. cbn [main_loop].
  cbv beta iota delta [bind modify]. by intros ->.
Qed.

Lemma main_loop_raise mk f rest s e s' :
  process mk (str_strip f) s = (Exc e, s') ->
  main_loop mk (f :: rest) s = (Exc e, s').
Proof.
  unfold process. cbn [main_loop].
  cbv beta iota delta [bind modify]. by intros ->.
Qed.

(** A file that cannot be opened: the failure is reported and the call
    returns [False], the file system being as it was. *)
Lemma process_cant_open mk path dir fs es wb f m :
  let base := os_path_basename path in
  saneDirname path = Some dir ->
  fs !! dir = Some (mkDir es true wb) ->
  es !! base = Some (Reg f) ->
  match_name base = Some m ->
  f_may_open f = false ->
  exists s',
    process mk path (start fs) = (Val false, s') /\
    reported s' = [DigestComputationError] /\
    st_fs s' = fs /\ st_log s' = [] /\ st_stdout s' = [].
Proof.
  intros base Hd Hfs Hb Hm Ho. subst base.
  rewrite (process_in_dir _ _ _ _ _ _ Hd Hfs).
  destruct (retag_in_dir _ _ _ _) as [r s'] eqn:H.
  destruct (length (names_with (group m 1) es) =? 1)%nat eqn:Hw; sym H.
  all: injection H as <- <-; eexists; split; [reflexivity|].
  all: split; [reflexivity|]; split; [by apply St_same|done].
Qed.

Example process_empty_path :
  process (mktime_fixed 0) "" (start (here es_legacy)) = (Exc TypeError, start (here es_legacy)).
Proof. vm_compute. reflexivity. Qed.

(** C10.  [tdsTouch] with a valid code and the name of no file: the
    call that should report the error is [sys.stderr.write] with two
    arguments, which raises [TypeError]; nothing is written and [False] is
    not returned. *)
Theorem tdsTouch_missing_file_raises :
  tdsTouch (mktime_fixed 0) "20200101000000" "nosuchfile" (start (here es_legacy))
  = (Exc TypeError, start (here es_legacy)).
Proof. vm_compute. reflexivity. Qed.

(** C4.  A file that opens but cannot be read: [md5stringForFile]
    raises [IOError] instead of returning [False], nothing is written to
    [stderr], and the driver loop stops with that exception before it
    reaches the next path, which stays as it was. *)
Theorem read_error_escapes :
  md5stringForFile "20200101000000" (start (here es_bad_sector))
  = (Exc IOError, start (here es_bad_sector)) /\
  main_loop (mktime_fixed 0) ["20200101000000"; "20200102000000"] (start (here es_bad_sector))
  = (Exc IOError, start (here es_bad_sector)).
Proof. split; vm_compute; reflexivity. Qed.
(** ** The theorems at sample inputs *)



Lemma process_duplicate_witness :
  let proposed := "20200101000000.900150983cd24fb0d6963f7d28e17f72" in
  let '(r, s') := process (mktime_fixed 0) "20200101000000" (start (here es_duplicate)) in
  (exists rest,
     st_log s' = [Removed "." proposed] ++ Renamed "." "20200101000000" proposed :: rest
     /\ Forall (fun a => is_touched a = true) rest) /\
  entry (st_fs s') "." "20200101000000" = None /\
  (exists f', entry (st_fs s') "." proposed = Some (Reg f')
              /\ f_data f' = f_data (file_of "abc")) /\
  (r = Val true <->
   exists tm t, strptime "20200101000000" = Some tm /\ mktime_fixed 0 tm = Some t
                /\ f_may_utime (file_of "abc") = true) /\
  (r = Val true ->
   reported s' = [] /\
   st_stdout s' = ["20200101000000" +:+ ": " +:+ "" +:+ " -> " +:+ md5_abc_hex]) /\
  (r <> Val true -> st_stdout s' = []) /\
  (strptime "20200101000000" = None ->
   r = Val false /\ last (reported s') = Some TimestampApplyFailed).
Proof.
  apply (process_duplicate (mktime_fixed 0) "20200101000000" "." (here es_duplicate)
           es_duplicate (file_of "abc") (file_of "abc") ["20200101000000"; ""]);
    vm_compute; done.
Defined.

(** C2 as stated fails: two files with the same content, the second
    under the canonical name of the first, and 14 digits that spell the
    30th of February.  The duplicate is removed and the file renamed, and
    the call fails with [TimestampApplyFailed]. *)
Lemma duplicate_then_no_date :
  let proposed := "20200230000000.900150983cd24fb0d6963f7d28e17f72" in
  entry (here es_duplicate_feb30) "." "20200230000000" = Some (Reg (file_of "abc")) /\
  entry (here es_duplicate_feb30) "." proposed = Some (Reg (file_of "abc")) /\
  let '(r, s') :=
    process (mktime_fixed 0) "20200230000000" (start (here es_duplicate_feb30)) in
  r = Val false /\
  reported s' = [TimestampApplyFailed; TimestampApplyFailed] /\
  st_log s' = [Removed "." proposed; Renamed "." "20200230000000" proposed].
Proof. vm_compute. done. Qed.

Lemma process_legacy_name_witness :
  let base := os_path_basename "20200101000000" in
  let md5 := Md5.hexdigest (f_data (file_of "abc")) in
  let proposed := base +:+ "." +:+ md5 in
  let '(r, s') := process (mktime_fixed 0) "20200101000000" (start (here es_legacy)) in
  In (Renamed "." base proposed) (st_log s') /\
  entry (st_fs s') "." base = None /\
  (exists f', entry (st_fs s') "." proposed = Some (Reg f')
              /\ f_data f' = f_data (file_of "abc")) /\
  all_chars is_lower_hex md5 = true /\
  (r = Val true <->
   exists tm t, strptime base = Some tm /\ mktime_fixed 0 tm = Some t
                /\ f_may_utime (file_of "abc") = true) /\
  (r = Val true -> st_stdout s' = [base +:+ ":  -> " +:+ md5]) /\
  (r <> Val true -> st_stdout s' = []).
Proof.
  apply (process_legacy_name (mktime_fixed 0) "20200101000000" "." (here es_legacy)
           es_legacy (file_of "abc"));
    lazymatch goal with
    | |- _ \/ _ => left; vm_compute; reflexivity
    | |- _ => vm_compute; reflexivity
    end.
Defined.

(** C5 as stated fails: a file in the old form whose 14 digits are no
    date is renamed, the call fails and no notice is printed. *)
Lemma legacy_no_date_no_notice :
  is_tds "99999999999999" = true /\
  let '(r, s') :=
    process (mktime_fixed 0) "99999999999999" (start (here es_legacy_nodate)) in
  r = Val false /\
  st_stdout s' = [] /\
  st_log s' = [Renamed "." "99999999999999"
                 "99999999999999.900150983cd24fb0d6963f7d28e17f72"].
Proof. vm_compute. done. Qed.




Example process_no_such_directory :
  process (mktime_fixed 0) "nowhere/20200101000000" (start (here es_legacy))
  = (Val false, mkState (here es_legacy) "." [NoDir "nowhere" "nowhere/20200101000000"] [] []).
Proof. vm_compute. reflexivity. Qed.

(* ===================================================================== *)
(** * Further properties *)
(* ===================================================================== *)

(** ** The names the script accepts *)

Lemma at_end_intro tail : tail = "" \/ tail = nl -> at_end tail = true.
Proof. by intros [-> | ->]. Qed.

Lemma parse_full_tail tds h tail :
  is_tds tds = true -> is_hex32 h = true -> tail = "" \/ tail = nl ->
  parse_full (tds +:+ "." +:+ h +:+ tail) = Some [tds; h].
Proof.
  intros [Ht1 Ht2]%is_tds_inv [Hh1 Hh2]%is_hex32_inv Htail. unfold parse_full.
  rewrite (rep_ok_app_n _ _ _ _ Ht1 Ht2), (str_drop_app_n _ _ _ Ht1),
    (str_take_app_n _ _ _ Ht1).
  change ("." +:+ h +:+ tail) with (String "." (h +:+ tail)). cbv iota.
  rewrite (rep_ok_app_n _ _ _ _ Hh1 Hh2), (str_drop_app_n _ _ _ Hh1),
    (str_take_app_n _ _ _ Hh1), (at_end_intro _ Htail).
  reflexivity.
Qed.

Lemma parse_legacy_tail tds tail :
  is_tds tds = true -> tail = "" \/ tail = nl ->
  parse_full (tds +:+ tail) = None /\ parse_legacy (tds +:+ tail) = Some [tds; ""].
Proof.
  intros [Ht1 Ht2]%is_tds_inv Htail. unfold parse_full, parse_legacy.
  rewrite (rep_ok_app_n _ _ _ _ Ht1 Ht2), (str_drop_app_n _ _ _ Ht1),
    (str_take_app_n _ _ _ Ht1), (at_end_intro _ Htail).
  by destruct Htail as [-> | ->].
Qed.

(** X1.  The names [tdsMD5retagFunc] accepts are the 14 digits, then nothing
    or a dot and 32 hexadecimal digits of either case, then nothing or one
    newline (which [$] lets through); group 1 is the digits and group 2 the
    hexadecimal digits, empty in the old form. *)
Theorem match_name_iff base m :
  match_name base = Some m <->
  exists tds tail,
    is_tds tds = true /\ (tail = "" \/ tail = nl) /\
    (m = [tds; ""] /\ base = tds +:+ tail \/
     exists h, is_hex32 h = true /\ m = [tds; h] /\ base = tds +:+ "." +:+ h +:+ tail).
Proof.
  split.
  - intros (tds & g2 & tail & -> & Ht & _ & Htail & [[-> ->]|[Hh ->]])%match_name_inv;
      exists tds, tail; eauto 10.
  - intros (tds & tail & Ht & Htail & [[-> ->]|(h & Hh & -> & ->)]);
      rewrite match_name_parse.
    + by destruct (parse_legacy_tail _ _ Ht Htail) as [-> ->].
    + by rewrite parse_full_tail.
Qed.

Lemma match_name_iff_witness :
  match_name "20200101000000.900150983CD24FB0D6963F7D28E17F72"
  = Some ["20200101000000"; "900150983CD24FB0D6963F7D28E17F72"].
Proof.
  apply match_name_iff.
  exists "20200101000000", "". split; [reflexivity|]. split; [by left|].
  right. exists "900150983CD24FB0D6963F7D28E17F72". by repeat split.
Defined.

(** ** Every call, whatever the path *)

Lemma retag_reported mk dir path fs es sb wb r s' :
  retag_in_dir mk dir path (St fs dir es sb wb [] [] []) = (r, s') ->
  reported s' <> [] <-> r = Val false.
Proof.
  intros H. sym H.
  all: injection H as <- <-; unfold reported; cbn [St st_stderr app].
  all: cbn [omap list_omap failure_of].
  all: split; [intros Hr; try done; by contradict Hr|done].
Qed.

(** X11.  A call returns [False] exactly when it has written a failure to
    [stderr]: no failure is silent, a call that succeeds reports none, and
    a call that an exception leaves has reported none either. *)
Theorem process_reports_failure mk path fs :
  let '(r, s') := process mk path (start fs) in
  reported s' <> [] <-> r = Val false.
Proof.
  rewrite retag_enter.
  destruct (saneDirname path) as [dir|]; [|done].
  destruct (fs !! dir) as [[es sb wb]|]; [|done].
  destruct sb; [|done].
  destruct (retag_in_dir _ _ _ _) as [r s'] eqn:H.
  by apply retag_reported in H.
Qed.





Lemma retag_success mk dir path fs es sb wb s' :
  retag_in_dir mk dir path (St fs dir es sb wb [] [] []) = (Val true, s') ->
  let base := os_path_basename path in
  exists f tm t,
    es !! base = Some (Reg f) /\
    is_Some (match_name base) /\
    strptime (str_take 14 base) = Some tm /\ mk tm = Some t /\
    entry (st_fs s') dir (canonical base f) = Some (Reg (retime t f)) /\
    (base <> canonical base f -> entry (st_fs s') dir base = None) /\
    last (st_log s') = Some (Touched dir (canonical base f) t t).
Proof.
  intros H base. subst base. sym H.
  all: try discriminate H.
  all: injection H as <-.
  all: match goal with Hm : match_name _ = Some _ |- _ =>
         destruct (match_name_tds _ _ Hm) as [Htds _] end.
  all: unfold canonical; rewrite <- ?Htds.
  all: try match goal with
    | e : os_path_basename ?p = _ +:+ _,
      Hb : ?m !! os_path_basename ?p = _,
      Hp : ?m !! (_ +:+ _) = _ |- _ =>
        rewrite <- e in Hp; rewrite Hb in Hp; simplify_eq
    end.
  all: do 3 eexists; split; [reflexivity|].
  all: rewrite !entry_St; cbn [St st_log app last].
  all: split; [eauto|]; split; [eassumption|]; split; [eassumption|].
  all: split; [by rewrite lookup_insert_eq|]; split; [|reflexivity].
  all: intros Hne; first [done | by rewrite !lookup_insert_ne, lookup_delete_eq by done].
Qed.



Lemma retag_untouched mk dir path fs es sb wb r s' n :
  retag_in_dir mk dir path (St fs dir es sb wb [] [] []) = (r, s') ->
  n <> os_path_basename path ->
  (forall f, es !! os_path_basename path = Some (Reg f) ->
             n <> canonical (os_path_basename path) f) ->
  entry (st_fs s') dir n = es !! n.
Proof.
  intros H Hn Hcan. sym H.
  all: injection H as <- <-; rewrite entry_St; try reflexivity.
  all: match goal with Hm : match_name _ = Some _ |- _ =>
         destruct (match_name_tds _ _ Hm) as [Htds _] end.
  all: pose proof (Hcan _ eq_refl) as Hn'; unfold canonical in Hn'; rewrite <- Htds in Hn'.
  all: by rewrite ?lookup_insert_ne, ?lookup_delete_ne by done.
Qed.

(** X15.  A call leaves alone everything but the processed file and the entry
    under its canonical name: every other entry of its directory, and
    every entry of every other directory, is after the call what it was
    before, whatever the call returns or raises.  No directory appears or
    disappears, and none changes its permissions. *)
Theorem process_untouched mk path fs :
  let '(r, s') := process mk path (start fs) in
  let base := os_path_basename path in
  (forall d n,
     (saneDirname path = Some d ->
      n <> base /\ forall f, entry fs d base = Some (Reg f) -> n <> canonical base f) ->
     entry (st_fs s') d n = entry fs d n) /\
  (forall d,
     match fs !! d, st_fs s' !! d with
     | Some a, Some b => d_may_search a = d_may_search b /\ d_may_write a = d_may_write b
     | None, None => True
     | _, _ => False
     end).
Proof.
  rewrite retag_enter.
  assert (Hsame : forall d : string,
    match fs !! d, fs !! d with
    | Some a, Some b => d_may_search a = d_may_search b /\ d_may_write a = d_may_write b
    | None, None => True
    | _, _ => False
    end) by (intros d; by destruct (fs !! d)).
  destruct (saneDirname path) as [dir|] eqn:Hd; [|done].
  destruct (fs !! dir) as [[es sb wb]|] eqn:Hfs; [|done].
  destruct sb; [|done].
  destruct (retag_in_dir _ _ _ _) as [r s'] eqn:H. cbn zeta. split.
  - intros d n Hdn. destruct (decide (d = dir)) as [->|Hne].
    + destruct (Hdn eq_refl) as [Hn Hcan].
      rewrite (retag_untouched _ _ _ _ _ _ _ _ _ n H Hn).
      * unfold entry. by rewrite Hfs.
      * intros f Hf. apply Hcan. unfold entry. by rewrite Hfs.
    + apply retag_outcomes in H as (es' & e & o & l & -> & _).
      unfold entry, St. cbn [st_fs]. by rewrite lookup_insert_ne.
  - intros d. apply retag_outcomes in H as (es' & e & o & l & -> & _).
    unfold St. cbn [st_fs]. destruct (decide (d = dir)) as [->|Hne].
    + by rewrite lookup_insert_eq, Hfs.
    + rewrite lookup_insert_ne by done. apply Hsame.
Qed.

Lemma process_untouched_witness :
  let '(r, s') := process (mktime_fixed 0) "20200101000000" (start (here es_collision)) in
  let base := os_path_basename "20200101000000" in
  (forall d n,
     (saneDirname "20200101000000" = Some d ->
      n <> base /\
      forall f, entry (here es_collision) d base = Some (Reg f) -> n <> canonical base f) ->
     entry (st_fs s') d n = entry (here es_collision) d n) /\
  (forall d,
     match here es_collision !! d, st_fs s' !! d with
     | Some a, Some b => d_may_search a = d_may_search b /\ d_may_write a = d_may_write b
     | None, None => True
     | _, _ => False
     end).
Proof. apply (process_untouched (mktime_fixed 0) "20200101000000" (here es_collision)). Defined.

Lemma retag_notice mk dir path fs es sb wb r s' :
  retag_in_dir mk dir path (St fs dir es sb wb [] [] []) = (r, s') ->
  let base := os_path_basename path in
  match st_stdout s' with
  | [] => r = Val true -> Forall (fun a => is_renamed a = false) (st_log s')
  | [line] =>
      r = Val true /\
      exists m f,
        es !! base = Some (Reg f) /\ match_name base = Some m /\
        line = group m 1 +:+ ": " +:+ group m 2 +:+ " -> " +:+ Md5.hexdigest (f_data f) /\
        In (Renamed dir base (canonical base f)) (st_log s')
  | _ => False
  end.
Proof.
  intros H base. subst base. sym H.
  all: injection H as <- <-; cbn [St st_stdout st_log app].
  all: try (intros ?; first [discriminate | by repeat constructor]).
  all: match goal with Hm : match_name _ = Some _ |- _ =>
         destruct (match_name_tds _ _ Hm) as [Htds _] end.
  all: unfold canonical; rewrite <- ?Htds.
  all: split; [reflexivity|]; do 2 eexists; split; [reflexivity|].
  all: split; [reflexivity|]; split; [reflexivity|]; cbn; auto.
Qed.

(** X13.  The script prints at most one line per call.  It prints one exactly
    when it has renamed the file and then set its timestamps: the line
    gives the 14 digits, the digest the old name carried (nothing for a
    name in the old form) and the digest of the content.  A call that
    succeeds without printing has renamed nothing; a call that fails or
    raises prints nothing, also when it has renamed the file. *)
Theorem process_notice mk path fs :
  let '(r, s') := process mk path (start fs) in
  let base := os_path_basename path in
  match st_stdout s' with
  | [] => r = Val true -> Forall (fun a => is_renamed a = false) (st_log s')
  | [line] =>
      r = Val true /\
      exists dir m f,
        saneDirname path = Some dir /\
        entry fs dir base = Some (Reg f) /\ match_name base = Some m /\
        line = group m 1 +:+ ": " +:+ group m 2 +:+ " -> " +:+ Md5.hexdigest (f_data f) /\
        In (Renamed dir base (canonical base f)) (st_log s')
  | _ => False
  end.
Proof.
  rewrite retag_enter.
  destruct (saneDirname path) as [dir|] eqn:Hd; [|done].
  destruct (fs !! dir) as [[es sb wb]|] eqn:Hfs; [|done].
  destruct sb; [|done].
  destruct (retag_in_dir _ _ _ _) as [r s'] eqn:H.
  apply retag_notice in H. cbn zeta in *.
  destruct (st_stdout s') as [|line [|]]; [done| |done].
  destruct H as (Hr & m & f & Hb & Hm & Hline & Hlog).
  split; [done|]. exists dir, m, f. unfold entry. rewrite Hfs. done.
Qed.

Lemma process_notice_witness :
  let '(r, s') := process (mktime_fixed 0) "20200101000000" (start (here es_legacy)) in
  let base := os_path_basename "20200101000000" in
  match st_stdout s' with
  | [] => r = Val true -> Forall (fun a => is_renamed a = false) (st_log s')
  | [line] =>
      r = Val true /\
      exists dir m f,
        saneDirname "20200101000000" = Some dir /\
        entry (here es_legacy) dir base = Some (Reg f) /\ match_name base = Some m /\
        line = group m 1 +:+ ": " +:+ group m 2 +:+ " -> " +:+ Md5.hexdigest (f_data f) /\
        In (Renamed dir base (canonical base f)) (st_log s')
  | _ => False
  end.
Proof. apply (process_notice (mktime_fixed 0) "20200101000000" (here es_legacy)). Defined.

(** ** Failures and what they leave *)

Lemma St_start fs dir es sb wb e o l :
  fs !! dir = Some (mkDir es sb wb) -> St fs dir es sb wb e o l = mkState fs dir e o l.
Proof. intros H. symmetry. by apply St_intro. Qed.

(** X19.  A path whose last component is no regular file of its directory,
    because there is no such entry or because it is a directory: the call
    fails with [NoSuchFile] before it looks at the form of the name, and
    nothing is changed. *)
Theorem process_no_file mk path dir fs es wb :
  let base := os_path_basename path in
  saneDirname path = Some dir ->
  fs !! dir = Some (mkDir es true wb) ->
  is_reg (es !! base) = false ->
  process mk path (start fs) = (Val false, mkState fs dir [NoFile base path dir] [] []).
Proof.
  intros base Hd Hfs Hb.
  rewrite (process_in_dir _ _ _ _ _ _ Hd Hfs), retag_no_file by done.
  f_equal. by apply St_start.
Qed.

Lemma process_no_file_witness :
  process (mktime_fixed 0) "20200101000001" (start (here es_legacy))
  = (Val false, mkState (here es_legacy) "."
                  [NoFile (os_path_basename "20200101000001") "20200101000001" "."] [] []).
Proof.
  apply (process_no_file (mktime_fixed 0) "20200101000001" "." (here es_legacy) es_legacy true);
    vm_compute; reflexivity.
Defined.

(** X20.  A regular file whose name has neither of the two accepted forms:
    the call fails with [UnrecognizedFilenameForm]; the file is not
    opened, no warning is written and nothing is changed. *)
Theorem process_bad_form mk path dir fs es wb f :
  let base := os_path_basename path in
  saneDirname path = Some dir ->
  fs !! dir = Some (mkDir es true wb) ->
  es !! base = Some (Reg f) ->
  match_name base = None ->
  process mk path (start fs) = (Val false, mkState fs dir [BadForm base dir] [] []).
Proof.
  intros base Hd Hfs Hb Hm. subst base.
  rewrite (process_in_dir _ _ _ _ _ _ Hd Hfs).
  destruct (retag_in_dir _ _ _ _) as [r s'] eqn:H. sym H.
  injection H as <- <-. f_equal. by apply St_start.
Qed.

Lemma process_bad_form_witness :
  process (mktime_fixed 0) "sub/2020-01-01.txt" (start (below "sub" es_unrecognised))
  = (Val false,
     mkState (below "sub" es_unrecognised) "sub"
             [BadForm (os_path_basename "sub/2020-01-01.txt") "sub"] [] []).
Proof.
  apply (process_bad_form (mktime_fixed 0) "sub/2020-01-01.txt" "sub"
           (below "sub" es_unrecognised) es_unrecognised true (file_of "abc"));
    vm_compute; reflexivity.
Defined.

Lemma str_app_inv_l a b c : a +:+ b = a +:+ c -> b = c.
Proof.
  induction a as [|x a IH]; [by rewrite !str_app_nil_l|].
  rewrite !str_app_cons. intros [= H]. by apply IH.
Qed.

(** X21.  A readable file whose name is [tds.h], 14 digits and 32 hexadecimal
    digits that are not the digest of its content as [hexdigest] writes
    it, in a directory that may be written, whose canonical name is free
    or held by a readable file with the same digest: the file is renamed to
    [tds.digest].  The comparison is of strings, so the right digest
    written in capitals counts as wrong and is replaced by the lowercase
    one.  The call succeeds exactly when the timestamp can then be
    applied, and then prints [tds: h -> digest]. *)
Theorem process_mistagged mk path dir fs es f tds h :
  let base := os_path_basename path in
  let md5 := Md5.hexdigest (f_data f) in
  let proposed := tds +:+ "." +:+ md5 in
  saneDirname path = Some dir ->
  fs !! dir = Some (mkDir es true true) ->
  es !! base = Some (Reg f) ->
  may_read f = true ->
  is_tds tds = true -> is_hex32 h = true ->
  base = tds +:+ "." +:+ h ->
  h <> md5 ->
  (es !! proposed = None \/
   exists g, es !! proposed = Some (Reg g) /\ may_read g = true /\
             Md5.hexdigest (f_data g) = md5) ->
  let '(r, s') := process mk path (start fs) in
  In (Renamed dir base proposed) (st_log s') /\
  entry (st_fs s') dir base = None /\
  (exists f', entry (st_fs s') dir proposed = Some (Reg f') /\ f_data f' = f_data f) /\
  (r = Val true <->
   exists tm t, strptime tds = Some tm /\ mk tm = Some t /\ f_may_utime f = true) /\
  (r = Val true -> st_stdout s' = [tds +:+ ": " +:+ h +:+ " -> " +:+ md5]) /\
  (r <> Val true -> st_stdout s' = []).
Proof.
  intros base md5 proposed Hd Hfs Hb Hf Ht Hh Hbase Hne Hp.
  rewrite (process_in_dir _ _ _ _ _ _ Hd Hfs).
  destruct (retag_in_dir _ _ _ _) as [r s'] eqn:H.
  assert (Hm : match_name base = Some [tds; h]) by (rewrite Hbase; by apply match_name_full).
  assert (Hne' : base <> proposed).
  { rewrite Hbase. intros E. apply Hne. apply str_app_inv_l in E.
    change ("." +:+ h) with (String "." h) in E.
    change ("." +:+ md5) with (String "." md5) in E. congruence. }
  assert (Hpost : exists pre, renamed_post mk dir base [tds; h] f pre r s').
  { destruct Hp as [Hp|(g & Hp & Hg & Hdig)].
    - exists []. by apply (retag_rename_free mk dir path fs es true f [tds; h]).
    - eexists. by apply (retag_rename_duplicate mk dir path fs es true f g [tds; h]). }
  destruct Hpost as (pre & (rest & Hlog & _) & Hgone & Hthere & Hiff & Hok & Hko & _).
  rewrite group_1, group_2 in *.
  split; [rewrite Hlog; apply in_or_app; right; by left|].
  split; [done|]. split; [done|]. split; [done|]. split; [|done].
  intros Hr. by destruct (Hok Hr).
Qed.

Lemma process_mistagged_witness :
  let path := "20200101000000.900150983CD24FB0D6963F7D28E17F72" in
  let proposed := "20200101000000" +:+ "." +:+ Md5.hexdigest (f_data (file_of "abc")) in
  let '(r, s') := process (mktime_fixed 0) path (start (here es_capitals)) in
  In (Renamed "." (os_path_basename path) proposed) (st_log s') /\
  entry (st_fs s') "." (os_path_basename path) = None /\
  (exists f', entry (st_fs s') "." proposed = Some (Reg f')
              /\ f_data f' = f_data (file_of "abc")) /\
  (r = Val true <->
   exists tm t, strptime "20200101000000" = Some tm /\ mktime_fixed 0 tm = Some t
                /\ f_may_utime (file_of "abc") = true) /\
  (r = Val true ->
   st_stdout s' = ["20200101000000" +:+ ": " +:+ "900150983CD24FB0D6963F7D28E17F72" +:+ " -> "
                   +:+ Md5.hexdigest (f_data (file_of "abc"))]) /\
  (r <> Val true -> st_stdout s' = []).
Proof.
  apply (process_mistagged (mktime_fixed 0) "20200101000000.900150983CD24FB0D6963F7D28E17F72"
           "." (here es_capitals) es_capitals (file_of "abc") "20200101000000"
           "900150983CD24FB0D6963F7D28E17F72");
    lazymatch goal with
    | |- _ \/ _ => left; vm_compute; reflexivity
    | |- _ <> _ => vm_compute; discriminate
    | |- _ => vm_compute; reflexivity
    end.
Defined.

Lemma canonical_group base m f :
  match_name base = Some m ->
  canonical base f = group m 1 +:+ "." +:+ Md5.hexdigest (f_data f).
Proof. intros [Ht _]%match_name_tds. unfold canonical. by rewrite Ht. Qed.





(** X25.  A directory that exists but may not be entered: [os.chdir] raises
    [OSError], which the handler written for [ValueError] does not catch;
    the exception leaves the call and nothing is written to [stderr]. *)
Theorem process_chdir_denied mk path dir fs d :
  saneDirname path = Some dir ->
  fs !! dir = Some d ->
  d_may_search d = false ->
  process mk path (start fs) = (Exc OSError, start fs).
Proof.
  intros Hd Hfs Hs. rewrite retag_enter, Hd, Hfs.
  destruct d as [es sb wb]. cbn in Hs. by rewrite Hs.
Qed.

Lemma process_chdir_denied_witness :
  process (mktime_fixed 0) "20200101000000" (start {["." := mkDir es_legacy false true]})
  = (Exc OSError, start {["." := mkDir es_legacy false true]}).
Proof.
  apply (process_chdir_denied (mktime_fixed 0) "20200101000000" "."
           {["." := mkDir es_legacy false true]} (mkDir es_legacy false true));
    vm_compute; reflexivity.
Defined.



(** ** The canonical name, the digest and the warning *)

Lemma match_name_is_tds base m : match_name base = Some m -> is_tds (str_take 14 base) = true.
Proof.
  intros Hm. pose proof Hm as (tds & g2 & tail & -> & Ht & _)%match_name_inv.
  apply match_name_tds in Hm as [Hg _]. rewrite group_1 in Hg. by rewrite <- Hg.
Qed.

Lemma canonical_match base m f :
  match_name base = Some m ->
  match_name (canonical base f) = Some [group m 1; Md5.hexdigest (f_data f)].
Proof.
  intros Hm. pose proof (match_name_is_tds _ _ Hm) as Ht.
  destruct (match_name_tds _ _ Hm) as [-> _]. unfold canonical.
  apply match_name_full; [done|apply hexdigest_is_hex32].
Qed.

(** X2.  The name the script builds is a name it accepts: for 14 digits and
    any content, [tds.md5] matches the first pattern, and its groups are
    the 14 digits and the digest it was built from.  So the canonical name
    of an accepted name is accepted, and is its own canonical name. *)
Theorem canonical_accepted base m f :
  match_name base = Some m ->
  match_name (canonical base f) = Some [group m 1; Md5.hexdigest (f_data f)] /\
  canonical (canonical base f) f = canonical base f.
Proof.
  intros Hm. split; [by apply canonical_match|].
  apply match_name_is_tds, is_tds_inv in Hm as [Hlen _].
  unfold canonical. by rewrite (str_take_app_n _ _ _ Hlen).
Qed.

Lemma canonical_accepted_witness :
  match_name (canonical "20200101000000" (file_of "abc"))
  = Some [group ["20200101000000"; ""] 1; Md5.hexdigest (f_data (file_of "abc"))] /\
  canonical (canonical "20200101000000" (file_of "abc")) (file_of "abc")
  = canonical "20200101000000" (file_of "abc").
Proof. apply (canonical_accepted "20200101000000"). vm_compute. reflexivity. Defined.









Lemma retag_success_perms mk dir path fs es sb wb s' f :
  retag_in_dir mk dir path (St fs dir es sb wb [] [] []) = (Val true, s') ->
  es !! os_path_basename path = Some (Reg f) ->
  f_may_open f = true /\ f_may_read f = true /\ f_may_utime f = true.
Proof.
  intros H Hb. sym H.
  all: try discriminate H.
  all: try match goal with
    | e : os_path_basename ?p = _ +:+ _,
      Hb : ?m !! os_path_basename ?p = _,
      Hp : ?m !! (_ +:+ _) = _ |- _ =>
        rewrite <- e in Hp; rewrite Hb in Hp; simplify_eq
    end.
  all: done.
Qed.

(** X10.  A call that has succeeded has finished the work on its file.  The
    call on the new name of the file, in the file system the first call
    left, succeeds again; it renames nothing, prints nothing and leaves
    that file system as it is: the one system call it makes sets the
    timestamps to the values they have. *)
Theorem process_settled mk path path' fs s1 :
  process mk path (start fs) = (Val true, s1) ->
  saneDirname path' = saneDirname path ->
  (forall dir f,
     saneDirname path = Some dir -> entry fs dir (os_path_basename path) = Some (Reg f) ->
     os_path_basename path' = canonical (os_path_basename path) f) ->
  exists s2 dir t,
    process mk path' (start (st_fs s1)) = (Val true, s2) /\
    st_fs s2 = st_fs s1 /\ st_stdout s2 = [] /\
    st_log s2 = [Touched dir (os_path_basename path') t t].
Proof.
  rewrite retag_enter. intros H1 Hd' Hbase'.
  destruct (saneDirname path) as [dir|] eqn:Hd; [|done].
  destruct (fs !! dir) as [[es sb wb]|] eqn:Hfs; [|done].
  destruct sb; [|done].
  pose proof H1 as (f & tm & t & Hb & [m Hm] & Htm & Hmk & Hnew & _)%retag_success.
  destruct (retag_success_perms _ _ _ _ _ _ _ _ _ H1 Hb) as (Ho & Hr & Hu).
  apply retag_outcomes in H1 as (es' & e & o & l & -> & _).
  rewrite entry_St in Hnew.
  assert (Hb' : os_path_basename path' = canonical (os_path_basename path) f).
  { apply (Hbase' dir); [done|]. unfold entry. by rewrite Hfs. }
  pose proof (canonical_match _ _ f Hm) as Hm'.
  destruct (match_name_tds _ _ Hm) as [Htds _].
  rewrite retag_enter, Hd'. unfold St at 1. cbn [st_fs]. rewrite lookup_insert_eq.
  fold (St fs dir es' true wb e o l). rewrite St_rebase.
  destruct (retag_touch_only mk dir path' fs es' true wb (retime t f)
              [group m 1; Md5.hexdigest (f_data f)] tm t) as [e2 He2]; try done.
  - by rewrite Hb'.
  - by rewrite Hb'.
  - rewrite Hb', group_1. by apply (canonical_group _ _ f).
  - by rewrite group_1, Htds.
  - rewrite He2. do 3 eexists. split; [reflexivity|].
    split; [|done]. unfold St. cbn [st_fs]. rewrite retime_retime, Hb'.
    by rewrite (insert_id es' _ _ Hnew).
Qed.

Lemma process_settled_witness :
  exists s2 dir t,
    process (mktime_fixed 0) "./20200101000000.900150983cd24fb0d6963f7d28e17f72"
      (start (st_fs (snd (process (mktime_fixed 0) "20200101000000" (start (here es_legacy))))))
    = (Val true, s2) /\
    st_fs s2 = st_fs (snd (process (mktime_fixed 0) "20200101000000" (start (here es_legacy)))) /\
    st_stdout s2 = [] /\
    st_log s2
    = [Touched dir
         (os_path_basename "./20200101000000.900150983cd24fb0d6963f7d28e17f72") t t].
Proof.
  apply (process_settled (mktime_fixed 0) "20200101000000"
           "./20200101000000.900150983cd24fb0d6963f7d28e17f72" (here es_legacy)).
  - vm_compute. reflexivity.
  - vm_compute. reflexivity.
  - intros dir f [= <-] Hf. vm_compute in Hf. injection Hf as <-. vm_compute. reflexivity.
Defined.

(** ** tdsTouch, paths, strip and the driver loop *)



Lemma rfind_end_zero p : rfind_end "/" p = O -> no_slash p = true.
Proof.
  induction p as [|a p IH]; [done|]. cbn [rfind_end].
  destruct (rfind_end "/" p); [|done].
  destruct (Ascii.eqb a "/") eqn:E; [done|]. intros _.
  unfold no_slash. cbn [all_chars]. unfold is_slash. rewrite E. by apply IH.
Qed.

Lemma no_slash_basename p : no_slash (os_path_basename p) = true.
Proof.
  unfold os_path_basename. induction p as [|a p IH]; [done|]. cbn [rfind_end].
  destruct (rfind_end "/" p) as [|n] eqn:E; [|exact IH].
  pose proof (rfind_end_zero _ E) as Hp.
  destruct (Ascii.eqb a "/") eqn:Ea; [exact Hp|].
  cbn [str_drop]. unfold no_slash. cbn [all_chars]. unfold is_slash. by rewrite Ea.
Qed.

Lemma last_slash p :
  let head := str_take (rfind_end "/" p) p in
  head = "" \/ exists h, head = h +:+ "/".
Proof.
  induction p as [|a p IH]; [by left|]. cbn [rfind_end].
  destruct (rfind_end "/" p) as [|n] eqn:E.
  - destruct (Ascii.eqb_spec a "/") as [->|]; [right|by left].
    exists "". reflexivity.
  - right. cbn zeta in IH. destruct IH as [IH|[h IH]].
    + destruct p; [discriminate E|discriminate IH].
    + exists (String a h).
      change (str_take (S (S n)) (String a p)) with (String a (str_take (S n) p)).
      by rewrite IH, str_app_cons.
Qed.

(** X3.  How a path is split.  The base name the script works on is what
    follows the last slash: the path is the base name after a head that is
    empty or ends with a slash, and the base name holds no slash, so that
    every name the call opens, renames or removes is an entry of the
    directory it has entered.  A path that ends with a slash has the empty
    base name. *)
Theorem path_split p :
  let base := os_path_basename p in
  no_slash base = true /\
  (exists head, p = head +:+ base /\ (head = "" \/ exists h, head = h +:+ "/")) /\
  (no_slash p = true -> base = p) /\
  (forall q, os_path_basename (q +:+ "/") = "").
Proof.
  cbn zeta. split; [apply no_slash_basename|]. split; [|split].
  - exists (str_take (rfind_end "/" p) p). split; [|apply last_slash].
    symmetry. apply str_take_drop.
  - intros Hp. unfold os_path_basename. by rewrite rfind_end_no_slash.
  - intros q. unfold os_path_basename.
    assert (H : rfind_end "/" (q +:+ "/") = S (String.length q)).
    { induction q as [|a q IH]; [done|]. rewrite str_app_cons. cbn [rfind_end]. by rewrite IH. }
    rewrite H. clear H. induction q as [|a q IH]; [done|]. by rewrite str_app_cons.
Qed.

Lemma str_lstrip_app p a s :
  all_chars p a = true -> str_lstrip p (a +:+ s) = str_lstrip p s.
Proof.
  induction a as [|c a IH]; [by rewrite str_app_nil_l|].
  cbn [all_chars]. intros [Hc Ha]%andb_true_iff.
  rewrite str_app_cons. cbn [str_lstrip]. rewrite Hc. by apply IH.
Qed.

Lemma str_rstrip_all p b : all_chars p b = true -> str_rstrip p b = "".
Proof.
  induction b as [|c b IH]; [done|].
  cbn [all_chars str_rstrip]. intros [Hc Hb]%andb_true_iff. by rewrite IH, Hc.
Qed.

Lemma str_rstrip_app p s b :
  all_chars (fun c => negb (p c)) s = true -> all_chars p b = true ->
  str_rstrip p (s +:+ b) = s.
Proof.
  intros Hs Hb. induction s as [|c s IH].
  - rewrite str_app_nil_l. by apply str_rstrip_all.
  - cbn [all_chars] in Hs. apply andb_true_iff in Hs as [Hc Hs].
    rewrite str_app_cons. cbn [str_rstrip]. rewrite (IH Hs).
    destruct s; [|done]. by destruct (p c).
Qed.

(** X4.  [strip] on an argument of the driver: white space around a name that
    holds none is removed and the name is what is left, so a path that
    comes with a trailing newline, as from a list of files, is processed
    as the path itself. *)
Theorem str_strip_name before name behind :
  all_chars is_space before = true ->
  all_chars is_space behind = true ->
  all_chars (fun c => negb (is_space c)) name = true ->
  str_strip (before +:+ name +:+ behind) = name.
Proof.
  intros Ha Hb Hn. unfold str_strip. rewrite (str_lstrip_app _ _ _ Ha).
  destruct name as [|c name].
  - rewrite str_app_nil_l. replace (str_lstrip is_space behind) with ""; [done|].
    clear -Hb. induction behind as [|c b IH]; [done|].
    cbn [all_chars] in Hb. apply andb_true_iff in Hb as [Hc Hb].
    cbn [str_lstrip]. rewrite Hc. by apply IH.
  - pose proof Hn as Hn'. cbn [all_chars] in Hn'. apply andb_true_iff in Hn' as [Hc _].
    rewrite str_app_cons. cbn [str_lstrip]. apply negb_true_iff in Hc. rewrite Hc.
    rewrite <- str_app_cons. by apply str_rstrip_app.
Qed.

Lemma str_strip_name_witness :
  str_strip ("  " +:+ "20200101000000.900150983cd24fb0d6963f7d28e17f72" +:+ nl)
  = "20200101000000.900150983cd24fb0d6963f7d28e17f72".
Proof. apply str_strip_name; vm_compute; reflexivity. Defined.

Lemma after_St fs0 c0 e o l fs dir es sb wb e' o' l' :
  after (mkState fs0 c0 e o l) (St fs dir es sb wb e' o' l')
  = St fs dir es sb wb (e ++ e') (o ++ o') (l ++ l').
Proof. reflexivity. Qed.

Lemma retag_in_dir_frame mk dir path fs fs2 es sb wb e o l r s' :
  retag_in_dir mk dir path (St fs dir es sb wb [] [] []) = (r, s') ->
  exists es' e' o' l',
    s' = St fs dir es' sb wb e' o' l' /\
    retag_in_dir mk dir path (St fs2 dir es sb wb e o l)
    = (r, St fs2 dir es' sb wb (e ++ e') (o ++ o') (l ++ l')).
Proof.
  intros H0. destruct (retag_in_dir mk dir path (St fs2 dir es sb wb e o l)) as [r1 s1] eqn:H.
  sym H0.
  all: sym H.
  all: injection H0 as <- <-; injection H as <- <-; do 4 eexists; split; [reflexivity|].
  all: by rewrite ?app_nil_r, <- ?app_assoc.
Qed.

Lemma retag_in_dir_after mk dir path fs es sb wb e o l r s' :
  retag_in_dir mk dir path (St fs dir es sb wb [] [] []) = (r, s') ->
  retag_in_dir mk dir path (St fs dir es sb wb e o l)
  = (r, after (mkState fs dir e o l) s').
Proof.
  intros H. by destruct (retag_in_dir_frame _ _ _ _ fs _ _ _ e o l _ _ H)
    as (es' & e' & o' & l' & -> & ->).
Qed.

Lemma process_enter mk path fs c e o l :
  process mk path (mkState fs c e o l) =
  match saneDirname path with
  | None => (Exc TypeError, mkState fs "." e o l)
  | Some dir =>
      match fs !! dir with
      | None => (Val false, mkState fs "." (e ++ [NoDir dir path]) o l)
      | Some (mkDir es sb wb) =>
          if sb then retag_in_dir mk dir path (St fs dir es sb wb e o l)
          else (Exc OSError, mkState fs "." e o l)
      end
  end.
Proof.
  unfold process, tdsMD5retagFunc.
  destruct (saneDirname path) as [dir|]; [|reflexivity].
  unfold bind, modify, os_path_isdir, os_chdir, get, ret, raise, set_cwd.
  cbn -[retag_in_dir].
  destruct (fs !! dir) as [[es sb wb]|] eqn:E; cbn -[retag_in_dir]; [|reflexivity].
  rewrite E. cbn -[retag_in_dir].
  destruct sb; [|reflexivity]. cbn -[retag_in_dir]. by rewrite (St_intro _ _ _ _ _ _ _ _ E).
Qed.

(** X18.  A call under the driver depends on the file system and on nothing
    else of the state it starts in.  Whatever the current directory is,
    and whatever has been written so far, it returns what it returns from
    a fresh start on the same file system, leaves the same file system and
    the same current directory, and appends to [stderr], to [stdout] and
    to the log what it writes there from a fresh start. *)
Theorem process_any_state mk path s :
  process mk path s =
  let '(r, s') := process mk path (start (st_fs s)) in (r, after s s').
Proof.
  destruct s as [fs c e o l]. unfold start. cbn [st_fs]. rewrite !process_enter.
  destruct (saneDirname path) as [dir|]; [|by unfold after; cbn; rewrite !app_nil_r].
  destruct (fs !! dir) as [[es sb wb]|] eqn:Hfs;
    [|by unfold after; cbn; rewrite !app_nil_r].
  destruct sb; [|by unfold after; cbn; rewrite !app_nil_r].
  destruct (retag_in_dir mk dir path (St fs dir es true wb [] [] [])) as [r s'] eqn:H.
  by rewrite (retag_in_dir_after _ _ _ _ _ _ _ e o l _ _ H).
Qed.

Lemma count_app p l1 l2 : count p (l1 ++ l2) = (count p l1 + count p l2)%nat.
Proof. unfold count. by rewrite List.filter_app, length_app. Qed.

Lemma process_counts mk path fs :
  let '(r, s') := process mk path (start fs) in
  (count is_renamed (st_log s') <= 1)%nat /\
  (count is_removed (st_log s') <= 1)%nat /\
  (count is_touched (st_log s') <= 1)%nat /\
  (length (st_stdout s') <= 1)%nat.
Proof.
  rewrite retag_enter.
  destruct (saneDirname path) as [dir|]; [|cbn; lia].
  destruct (fs !! dir) as [[es sb wb]|]; [|cbn; lia].
  destruct sb; [|cbn; lia].
  destruct (retag_in_dir _ _ _ _) as [r s'] eqn:H.
  pose proof (retag_notice _ _ _ _ _ _ _ _ _ H) as Hout. cbn zeta in Hout.
  assert (Ho : (length (st_stdout s') <= 1)%nat).
  { destruct (st_stdout s') as [|x [|y o']]; cbn; [lia|lia|done]. }
  apply retag_outcomes in H as (es' & e & o & l & -> & _ & Hl).
  cbn [St st_log] in *. split; [|split; [|split; [|done]]].
  all: inversion Hl; subst; try (cbn; lia).
  all: repeat match goal with
         | H : _ \/ _ |- _ => destruct H
         | H : _ /\ _ |- _ => destruct H
         | H : exists _, _ |- _ => destruct H
         end; subst; cbn; lia.
Qed.

Lemma main_loop_counts mk args s :
  let '(r, s') := main_loop mk args s in
  (count is_renamed (st_log s') <= count is_renamed (st_log s) + length args)%nat /\
  (count is_removed (st_log s') <= count is_removed (st_log s) + length args)%nat /\
  (count is_touched (st_log s') <= count is_touched (st_log s) + length args)%nat /\
  (length (st_stdout s') <= length (st_stdout s) + length args)%nat.
Proof.
  revert s. induction args as [|f rest IH]; intros s; [cbn; lia|].
  pose proof (process_any_state mk (str_strip f) s) as Hp.
  pose proof (process_counts mk (str_strip f) (st_fs s)) as Hc.
  destruct (process mk (str_strip f) (start (st_fs s))) as [r1 s1].
  assert (Hafter :
    (count is_renamed (st_log (after s s1)) <= count is_renamed (st_log s) + 1)%nat /\
    (count is_removed (st_log (after s s1)) <= count is_removed (st_log s) + 1)%nat /\
    (count is_touched (st_log (after s s1)) <= count is_touched (st_log s) + 1)%nat /\
    (length (st_stdout (after s s1)) <= length (st_stdout s) + 1)%nat).
  { unfold after. cbn [st_log st_stdout]. rewrite !count_app, length_app. lia. }
  destruct r1 as [b|ex].
  - rewrite (main_loop_next _ _ _ _ _ _ Hp). specialize (IH (after s s1)).
    destruct (main_loop mk rest (after s s1)) as [r s']. cbn [length]. lia.
  - rewrite (main_loop_raise _ _ _ _ _ _ Hp). cbn [length]. lia.
Qed.

(** X27.  A run of the driver over [n] arguments renames at most [n] files,
    removes at most [n], sets the timestamps of at most [n] and prints at
    most [n] lines, however it ends. *)
Theorem main_loop_bound mk args fs :
  let '(r, s') := main_loop mk args (start fs) in
  (count is_renamed (st_log s') <= length args)%nat /\
  (count is_removed (st_log s') <= length args)%nat /\
  (count is_touched (st_log s') <= length args)%nat /\
  (length (st_stdout s') <= length args)%nat.
Proof.
  pose proof (main_loop_counts mk args (start fs)) as H.
  destruct (main_loop mk args (start fs)) as [r s']. cbn in H. lia.
Qed.

(** X28.  The loop stops at the first call that raises and nowhere else.
    When a run ends with an exception, the arguments before the one that
    raised have all been processed, whether their calls returned [True] or
    [False]; the exception is that of the call on the stripped argument;
    the state is the one that call left, so that no later argument has been
    looked at. *)
Theorem main_loop_stops mk args s e s' :
  main_loop mk args s = (Exc e, s') ->
  exists before f rest s0,
    args = before ++ f :: rest /\
    main_loop mk before s = (Val tt, s0) /\
    process mk (str_strip f) s0 = (Exc e, s').
Proof.
  revert s. induction args as [|f rest IH]; intros s H; [discriminate H|].
  destruct (process mk (str_strip f) s) as [[b|ex] s1] eqn:Hp.
  - rewrite (main_loop_next _ _ _ _ _ _ Hp) in H.
    destruct (IH _ H) as (before & g & rest' & s0 & -> & Hb & Hg).
    exists (f :: before), g, rest', s0. split; [done|]. split; [|done].
    by rewrite (main_loop_next _ _ _ _ _ _ Hp).
  - rewrite (main_loop_raise _ _ _ _ _ _ Hp) in H. injection H as <- <-.
    by exists [], f, rest, s.
Qed.

Lemma main_loop_stops_witness :
  exists before f rest s0,
    ["20200102000000"; "20200101000000"; "20200102000000"] = before ++ f :: rest /\
    main_loop (mktime_fixed 0) before (start (here es_bad_sector)) = (Val tt, s0) /\
    process (mktime_fixed 0) (str_strip f) s0
    = (Exc IOError,
       snd (main_loop (mktime_fixed 0)
              ["20200102000000"; "20200101000000"; "20200102000000"]
              (start (here es_bad_sector)))).
Proof.
  apply (main_loop_stops (mktime_fixed 0)
           ["20200102000000"; "20200101000000"; "20200102000000"]
           (start (here es_bad_sector))).
  vm_compute. reflexivity.
Defined.

(** ** More failures, and what no call does *)

Lemma str_strip_blank f : all_chars is_space f = true -> str_strip f = "".
Proof.
  intros H. unfold str_strip. replace (str_lstrip is_space f) with ""; [done|].
  induction f as [|c f IH]; [done|].
  cbn [all_chars] in H. apply andb_true_iff in H as [Hc H].
  cbn [str_lstrip]. rewrite Hc. by apply IH.
Qed.

(** X29.  An argument that is empty or all white space stops the run.  The
    driver strips it to the empty path, [saneDirname] returns [None] for
    it and [os.path.isdir(None)] raises [TypeError]: the exception leaves
    the loop, nothing is written, and the arguments after it are not
    processed. *)
Theorem main_loop_blank_argument mk f rest s :
  all_chars is_space f = true ->
  main_loop mk (f :: rest) s = (Exc TypeError, set_cwd "." s).
Proof.
  intros Hf. apply main_loop_raise. by rewrite (str_strip_blank _ Hf).
Qed.

Lemma main_loop_blank_argument_witness :
  main_loop (mktime_fixed 0) [" "; "20200101000000"] (start (here es_legacy))
  = (Exc TypeError, set_cwd "." (start (here es_legacy))).
Proof. apply main_loop_blank_argument. vm_compute. reflexivity. Defined.



(** X7.  [tdsTouch] raises [TypeError] exactly when the code parses and the
    name is no regular file of the current directory: the branch written
    to report the name and return [False] never returns.  The state is
    then what it was. *)
Theorem tdsTouch_type_error mk code name s s' :
  tdsTouch mk code name s = (Exc TypeError, s') <->
  is_Some (strptime code) /\ is_reg (lookup_entry s name) = false /\ s' = s.
Proof.
  split.
  - unfold tdsTouch. destruct (strptime code) as [tm|]; [|done].
    cbv beta iota delta [bind os_path_isfile get ret stderr_write2 raise try_except].
    destruct (lookup_entry s name) as [[f|]|] eqn:E; cbn [negb is_reg].
    2,3: intros [= <-]; eauto.
    destruct (mk tm) as [t|]; [|done].
    unfold os_utime, bind, get, raise. rewrite E.
    destruct (f_may_utime f); [|done].
    cbv beta iota delta [modify log bind ret]. done.
  - intros ([tm Htm] & Hn & ->). by apply (tdsTouch_not_file _ _ _ _ tm).
Qed.

(** X9.  A call that returns [True] was given a name whose 14 digits are a
    date of the calendar with an hour up to 23, a minute up to 59 and a
    second up to 61: a file whose digits are anything else is never
    reported as done. *)
Theorem process_true_accepted mk path fs s' :
  process mk path (start fs) = (Val true, s') ->
  is_tds (str_take 14 (os_path_basename path)) = true /\
  accepted (str_take 14 (os_path_basename path)) = true.
Proof.
  rewrite retag_enter.
  destruct (saneDirname path) as [dir|]; [|done].
  destruct (fs !! dir) as [[es sb wb]|]; [|done].
  destruct sb; [|done].
  intros (f & tm & t & _ & [m Hm] & Htm & _)%retag_success.
  pose proof (match_name_is_tds _ _ Hm) as Ht. split; [done|].
  rewrite (strptime_accepted _ Ht) in Htm.
  by destruct (accepted _).
Qed.

Lemma process_true_accepted_witness :
  is_tds (str_take 14 (os_path_basename "20200101000000")) = true /\
  accepted (str_take 14 (os_path_basename "20200101000000")) = true.
Proof.
  apply (process_true_accepted (mktime_fixed 0) "20200101000000" (here es_legacy)
           (snd (process (mktime_fixed 0) "20200101000000" (start (here es_legacy))))).
  vm_compute. reflexivity.
Defined.

Lemma retag_content mk dir path fs es sb wb r s' n x :
  retag_in_dir mk dir path (St fs dir es sb wb [] [] []) = (r, s') ->
  entry (st_fs s') dir n = Some x ->
  match x with
  | Reg f' =>
      exists n0 f0, es !! n0 = Some (Reg f0) /\ f_data f' = f_data f0 /\
                    f_may_open f' = f_may_open f0 /\ f_may_read f' = f_may_read f0 /\
                    f_may_utime f' = f_may_utime f0
  | Subdir => es !! n = Some Subdir
  end.
Proof.
  intros H Hx. sym H.
  all: injection H as <- <-; rewrite entry_St in Hx.
  all: try match goal with
    | e : os_path_basename ?p = _ +:+ _,
      Hb : ?m !! os_path_basename ?p = _,
      Hp : ?m !! (_ +:+ _) = _ |- _ =>
        rewrite <- e in Hp; rewrite Hb in Hp; simplify_eq
    end.
  all: repeat match type of Hx with
    | <[?k := _]> _ !! ?n = _ =>
        destruct (decide (n = k)) as [->|];
        [rewrite lookup_insert_eq in Hx | rewrite lookup_insert_ne in Hx by done]
    | delete ?k _ !! ?n = _ =>
        destruct (decide (n = k)) as [->|];
        [rewrite lookup_delete_eq in Hx; discriminate Hx
        | rewrite lookup_delete_ne in Hx by done]
    end.
  all: try (injection Hx as <-; cbn [retime f_data f_may_open f_may_read f_may_utime]).
  all: try (destruct x); eauto 10.
Qed.

(** X16.  The script writes no file content and grants nothing.  Every
    regular file a directory holds after a call has the bytes and the
    permissions of a regular file the same directory held before the call;
    every directory entry was there before; and this holds whatever the
    call returns or raises. *)
Theorem process_preserves_content mk path fs :
  let '(r, s') := process mk path (start fs) in
  forall d n x,
    entry (st_fs s') d n = Some x ->
    match x with
    | Reg f' =>
        exists n0 f0, entry fs d n0 = Some (Reg f0) /\ f_data f' = f_data f0 /\
                      f_may_open f' = f_may_open f0 /\ f_may_read f' = f_may_read f0 /\
                      f_may_utime f' = f_may_utime f0
    | Subdir => entry fs d n = Some Subdir
    end.
Proof.
  rewrite retag_enter.
  assert (Hsame : forall d n x, entry fs d n = Some x ->
    match x with
    | Reg f' =>
        exists n0 f0, entry fs d n0 = Some (Reg f0) /\ f_data f' = f_data f0 /\
                      f_may_open f' = f_may_open f0 /\ f_may_read f' = f_may_read f0 /\
                      f_may_utime f' = f_may_utime f0
    | Subdir => entry fs d n = Some Subdir
    end) by (intros d n [f'|] Hx; eauto 10).
  destruct (saneDirname path) as [dir|]; [|done].
  destruct (fs !! dir) as [[es sb wb]|] eqn:Hfs; [|done].
  destruct sb; [|done].
  destruct (retag_in_dir _ _ _ _) as [r s'] eqn:H.
  intros d n x Hx. destruct (decide (d = dir)) as [->|Hne].
  - pose proof (retag_content _ _ _ _ _ _ _ _ _ _ _ H Hx) as Hc.
    unfold entry. rewrite Hfs. exact Hc.
  - apply retag_outcomes in H as (es' & e & o & l & -> & _).
    apply Hsame. revert Hx. unfold entry, St. cbn [st_fs]. by rewrite lookup_insert_ne.
Qed.
(** X17.  A call looks at one directory only.  On two file systems that hold
    the same directory under the name the path gives, whatever else they
    hold, the call returns the same, writes and logs the same, and leaves
    that directory the same. *)
Theorem process_local mk path dir fs1 fs2 :
  saneDirname path = Some dir ->
  fs1 !! dir = fs2 !! dir ->
  let '(r1, s1) := process mk path (start fs1) in
  let '(r2, s2) := process mk path (start fs2) in
  r1 = r2 /\ st_stderr s1 = st_stderr s2 /\ st_stdout s1 = st_stdout s2 /\
  st_log s1 = st_log s2 /\ st_fs s1 !! dir = st_fs s2 !! dir /\ st_cwd s1 = st_cwd s2.
Proof.
  intros Hd Hfs. rewrite !retag_enter, Hd, <- Hfs.
  destruct (fs1 !! dir) as [[es sb wb]|] eqn:E; [|by cbn; rewrite <- Hfs].
  destruct sb; [|by cbn; rewrite <- Hfs].
  destruct (retag_in_dir mk dir path (St fs1 dir es true wb [] [] [])) as [r s'] eqn:H.
  destruct (retag_in_dir_frame _ _ _ _ fs2 _ _ _ [] [] [] _ _ H)
    as (es' & e' & o' & l' & -> & ->).
  unfold St. cbn. by rewrite !lookup_insert_eq.
Qed.

Lemma process_local_witness :
  let '(r1, s1) := process (mktime_fixed 0) "20200101000000" (start (here es_legacy)) in
  let '(r2, s2) :=
    process (mktime_fixed 0) "20200101000000"
            (start (<["sub" := mkDir es_unrecognised true true]> (here es_legacy))) in
  r1 = r2 /\ st_stderr s1 = st_stderr s2 /\ st_stdout s1 = st_stdout s2 /\
  st_log s1 = st_log s2 /\ st_fs s1 !! "." = st_fs s2 !! "." /\ st_cwd s1 = st_cwd s2.
Proof.
  apply (process_local (mktime_fixed 0) "20200101000000" "." (here es_legacy)
           (<["sub" := mkDir es_unrecognised true true]> (here es_legacy)));
    vm_compute; reflexivity.
Defined.
